(** * Synthetic-dialogue library (sdl): actors, annotation jobs, configuration IO

    A shallow embedding of [sdl/actors.py], [sdl/annotation.py] and
    [sdl/conversation_io.py], and the properties of the annotation loop,
    of the actor prompting contract and of the configuration record that
    the specification states about them.

    Conventions.
    - Python values that come out of [json.load], or that go into a
      dictionary handed to [json.dump], are values of [pyval].
    - A method is a computation in the monad [M S A]: it reads and
      updates a state [S] (the receiver together with the part of the
      world it touches) and either returns a value or raises.
    - The language model behind an actor is an external agent.  It is
      represented by the function that answers a prompt, given the log of
      the earlier prompts; the log is the agent-side state of the world. *)

From Stdlib Require Import ZArith Lia List String Ascii Bool.
From Stdlib Require Floats.SpecFloat.
From stdpp Require Import base option list strings gmap fin_maps.

Import ListNotations.
Local Open Scope string_scope.
Local Open Scope list_scope.
Local Open Scope Z_scope.

(** ** Python values *)

(** [float] values are never inspected here; they are only carried. *)
Abbreviation pyfloat := SpecFloat.spec_float.

(** The values [json.load] can produce, plus tuples (which [json.dump]
    accepts and writes as arrays).  A dictionary keeps its items in
    insertion order, as Python does; its keys are strings. *)
#[warnings="-register-all"]
Inductive pyval : Type :=
| PNone
| PBool (b : bool)
| PInt (z : Z)
| PFloat (f : pyfloat)
| PStr (s : string)
| PList (l : list pyval)
| PTuple (l : list pyval)
| PDict (items : list (string * pyval)).

Inductive exn : Type :=
| KeyError (key : string)
| TypeError (msg : string)
| ValueError (msg : string)
| AssertionError (msg : string)
| AttributeError (msg : string)
| IndexError (msg : string)
| FileNotFoundError (path : string).

Inductive result (A : Type) : Type :=
| Ok (a : A)
| Raise (e : exn).
Arguments Ok {A} a.
Arguments Raise {A} e.

(** Sequencing of results outside any state. *)
Definition and_then {A B} (r : result A) (f : A -> result B) : result B :=
  match r with
  | Ok a => f a
  | Raise e => Raise e
  end.

(** ** The state-and-exception monad of method bodies *)

Definition M (S A : Type) : Type := S -> result A * S.

Definition ret {S A} (a : A) : M S A := fun s => (Ok a, s).

Definition raise {S A} (e : exn) : M S A := fun s => (Raise e, s).

Definition bind {S A B} (m : M S A) (f : A -> M S B) : M S B :=
  fun s => match m s with
           | (Ok a, s') => f a s'
           | (Raise e, s') => (Raise e, s')
           end.

Definition get {S} : M S S := fun s => (Ok s, s).

Definition modify {S} (f : S -> S) : M S unit := fun s => (Ok tt, f s).

Definition lift_result {S A} (r : result A) : M S A := fun s => (r, s).

(** Run a computation on the second component of the state. *)
Definition on_snd {S T A} (m : M T A) : M (S * T) A :=
  fun st => let '(r, t') := m (snd st) in (r, (fst st, t')).

Declare Scope py_scope.
Delimit Scope py_scope with py.
Notation "x <- m ;; k" := (bind m (fun x => k))
  (at level 20, m at level 99, k at level 200, only parsing) : py_scope.
Notation "' pat <- m ;; k" := (bind m (fun x => match x with pat => k end))
  (at level 20, pat pattern, m at level 99, k at level 200, only parsing)
  : py_scope.
Notation "m ;; k" := (bind m (fun _ => k))
  (at level 100, k at level 200, only parsing, right associativity) : py_scope.
Local Open Scope py_scope.

(** [for x in xs: acc = body(acc, x)], the loop-carried local [acc]
    threaded explicitly. *)
Fixpoint for_in {S A B} (xs : list A) (acc : B) (body : B -> A -> M S B)
  : M S B :=
  match xs with
  | [] => ret acc
  | x :: xs' => acc' <- body acc x ;; for_in xs' acc' body
  end.

(** ** Built-ins on values *)

Definition newline : string := String "010"%char EmptyString.

(** [sep.join(parts)] *)
Definition join (sep : string) (parts : list string) : string :=
  String.concat sep parts.

Fixpoint chars (s : string) : list pyval :=
  match s with
  | EmptyString => []
  | String c s' => PStr (String c EmptyString) :: chars s'
  end.

(** [d[key]] for a string key. *)
Fixpoint assoc (key : string) (items : list (string * pyval)) : option pyval :=
  match items with
  | [] => None
  | (k, v) :: rest => if String.eqb k key then Some v else assoc key rest
  end.

Definition py_getitem (d : pyval) (key : string) : result pyval :=
  match d with
  | PDict items =>
      match assoc key items with
      | Some v => Ok v
      | None => Raise (KeyError key)
      end
  | PStr _ => Raise (TypeError "string indices must be integers")
  | PList _ => Raise (TypeError "list indices must be integers or slices")
  | PTuple _ => Raise (TypeError "tuple indices must be integers or slices")
  | _ => Raise (TypeError "object is not subscriptable")
  end.

(** The items a [for] loop (or an unpacking) draws from a value: the
    elements of a list or tuple, the characters of a string, the keys of
    a dictionary. *)
Definition py_iter (v : pyval) : result (list pyval) :=
  match v with
  | PList l | PTuple l => Ok l
  | PStr s => Ok (chars s)
  | PDict items => Ok (map (fun kv => PStr (fst kv)) items)
  | _ => Raise (TypeError "object is not iterable")
  end.

(** [a, b = v] *)
Definition unpack2 (v : pyval) : result (pyval * pyval) :=
  match py_iter v with
  | Ok [a; b] => Ok (a, b)
  | Ok (_ :: _ :: _ :: _) => Raise (ValueError "too many values to unpack (expected 2)")
  | Ok _ => Raise (ValueError "not enough values to unpack (expected 2)")
  | Raise e => Raise e
  end.

(** [len(v)] *)
Definition py_len (v : pyval) : result nat :=
  match v with
  | PStr s => Ok (String.length s)
  | PList l | PTuple l => Ok (length l)
  | PDict items => Ok (length items)
  | _ => Raise (TypeError "object has no len()")
  end.

(** ** collections.deque with a maxlen *)

Module deque.

Record t (A : Type) : Type := mk { maxlen : Z; items : list A }.
Arguments mk {A} maxlen items.
Arguments maxlen {A} _.
Arguments items {A} _.

(** [collections.deque(maxlen=n)]: a negative bound is refused. *)
Definition new {A} (n : Z) : result (t A) :=
  if n <? 0 then Raise (ValueError "maxlen must be non-negative")
  else Ok (mk n []).

(** [d.append(x)]: the item goes to the right end; if that makes the
    deque longer than [maxlen], the leftmost item is discarded. *)
Definition append {A} (d : t A) (x : A) : t A :=
  let grown := items d ++ [x] in
  if maxlen d <? Z.of_nat (length grown)
  then mk (maxlen d) (tl grown)
  else mk (maxlen d) grown.

(** [list(d)] *)
Definition to_list {A} (d : t A) : list A := items d.

End deque.

(** ** sdl/actors.py *)

Record ChatMessage : Type := mkChat { role : string; content : string }.

(** One call of [model.prompt(messages, stop_list=...)]. *)
Record PromptCall : Type := mkCall {
  call_model : string;
  call_messages : list ChatMessage;
  call_stop_list : list string
}.

(** The agent-side state of the world: the prompts issued so far. *)
Abbreviation Agents := (list PromptCall).

(** [models.LlamaModel] seen from its callers: an identity and what it
    answers to a prompt (a text, or a failure it raises), which may depend
    on everything the agents have been asked before. *)
Record LlamaModel : Type := mkModel {
  model_id : string;
  generate : Agents -> list ChatMessage -> list string -> result string
}.

(** [model.prompt(messages, stop_list)] *)
Definition model_prompt (m : LlamaModel) (messages : list ChatMessage)
    (stop_list : list string) : M Agents string :=
  fun log =>
    (generate m log messages stop_list,
     log ++ [mkCall (model_id m) messages stop_list]).

Module LlmActor.

(** The concrete subclasses of the abstract class. *)
Inductive cls : Type := LLMUser | LLMAnnotator.

Record t : Type := mk {
  class : cls;
  model : LlamaModel;
  name : string;
  attributes : list string;
  context : string;
  instructions : string
}.

Definition get_name (self : t) : string := name self.

Definition _system_prompt (self : t) : ChatMessage :=
  let prompt :=
    "You are " +:+ name self +:+ " " +:+ join ", " (attributes self)
    +:+ ". Context: " +:+ context self
    +:+ ". Your instructions: " +:+ instructions self +:+ "." in
  mkChat "system" prompt.

(** [LLMUser._message_prompt] *)
Definition LLMUser_message_prompt (self : t) (history : list string)
  : ChatMessage :=
  mkChat "user"
    (join newline history +:+ newline +:+ "User " +:+ get_name self +:+ " posted:").

(** [LLMAnnotator._message_prompt] *)
Definition LLMAnnotator_message_prompt (self : t) (history : list string)
  : ChatMessage :=
  mkChat "user"
    ("Conversation so far:" +:+ newline +:+ newline
     +:+ join newline history +:+ newline +:+ "Output:").

(** The abstract method, resolved on the receiver's class. *)
Definition _message_prompt (self : t) (history : list string) : ChatMessage :=
  match class self with
  | LLMUser => LLMUser_message_prompt self history
  | LLMAnnotator => LLMAnnotator_message_prompt self history
  end.

(** [speak], a final method: the state is the receiver and the agents. *)
Definition speak (history : list string) : M (t * Agents) string :=
  st <- get ;;
  let self := fst st in
  let system_prompt := _system_prompt self in
  let message_prompt := _message_prompt self history in
  response <- on_snd (model_prompt (model self)
                        [system_prompt; message_prompt] ["User"]) ;;
  ret response.

Definition describe (self : t) : string := content (_system_prompt self).

Definition class_name (c : cls) : string :=
  match c with LLMUser => "LLMUser" | LLMAnnotator => "LLMAnnotator" end.

End LlmActor.

(** ** The world outside the objects *)

(** A file either holds the text of a JSON document ([Some doc], the
    value [json.load] reads from it) or something else ([None]: an empty
    or truncated file). *)
Record World (X : Type) : Type := mkWorld {
  files : gmap string (option pyval);
  stdout : list string;
  clock : string -> string;   (* [datetime.now().strftime(fmt)] *)
  agents : X                  (* state of the external agents *)
}.
Arguments mkWorld {X} files stdout clock agents.
Arguments files {X} _.
Arguments stdout {X} _.
Arguments clock {X} _.
Arguments agents {X} _.

Definition set_agents {X Y} (w : World X) (x : Y) : World Y :=
  mkWorld (files w) (stdout w) (clock w) x.

Definition set_files {X} (w : World X) (fs : gmap string (option pyval))
  : World X :=
  mkWorld fs (stdout w) (clock w) (agents w).

(** [print(s)] *)
Definition print {X} (s : string) : M (World X) unit :=
  modify (fun w => mkWorld (files w) (stdout w ++ [s]) (clock w) (agents w)).

(** Run an agent-side computation inside the world. *)
Definition on_agents {X A} (m : M X A) : M (World X) A :=
  fun w => let '(r, x') := m (agents w) in (r, set_agents w x').

(** [with open(path, "r") as fin: json.load(fin)] *)
Definition json_load_file {X} (path : string) : M (World X) pyval :=
  fun w => match files w !! path with
           | None => (Raise (FileNotFoundError path), w)
           | Some None => (Raise (ValueError "JSONDecodeError"), w)
           | Some (Some doc) => (Ok doc, w)
           end.

(** What [json.load] reads back after [json.dump] wrote a value: tuples
    come back as lists, everything else as it was. *)
Fixpoint json_image (v : pyval) : pyval :=
  match v with
  | PList l => PList (map json_image l)
  | PTuple l => PList (map json_image l)
  | PDict items =>
      PDict ((fix go (kvs : list (string * pyval)) :=
                match kvs with
                | [] => []
                | (k, x) :: rest => (k, json_image x) :: go rest
                end) items)
  | _ => v
  end.

(** [open(path, "w")]: the file now exists and is empty. *)
Definition open_for_writing {X} (path : string) : M (World X) unit :=
  modify (fun w => set_files w (<[path := None]> (files w))).

(** [json.dump(doc, fout)] on the file just opened. *)
Definition json_dump_file {X} (doc : pyval) (path : string) : M (World X) unit :=
  modify (fun w => set_files w (<[path := Some (json_image doc)]> (files w))).

(** The interface [AnnotationConv] expects of its annotator: a class
    name, [speak] and [describe].  [speak] acts on the agents' state and
    may raise. *)
Record IActor (X : Type) : Type := mkActor {
  actor_class_name : string;
  actor_speak : list string -> M X string;
  actor_describe : string
}.
Arguments mkActor {X} _ _ _.
Arguments actor_class_name {X} _.
Arguments actor_speak {X} _ _.
Arguments actor_describe {X} _.

(** An [LlmActor] as an [IActor]: the receiver is read, never written
    back ([speak] leaves it as it found it, see [speak_state]). *)
Definition LlmActor_IActor (a : LlmActor.t) : IActor Agents :=
  mkActor (LlmActor.class_name (LlmActor.class a))
          (fun history log =>
             let '(r, st) := LlmActor.speak history (a, log) in (r, snd st))
          (LlmActor.describe a).

(** ** sdl/annotation.py *)

Module AnnotationConv.

Record t (X : Type) : Type := mk {
  annotator : IActor X;
  history_ctx_len : Z;
  annotation_logs : list (pyval * string);
  conv_data_dict : pyval
}.
Arguments mk {X} _ _ _ _.
Arguments annotator {X} _.
Arguments history_ctx_len {X} _.
Arguments annotation_logs {X} _.
Arguments conv_data_dict {X} _.

(** [self.annotation_logs.append(entry)] *)
Definition append_log {X} (entry : pyval * string) : M (t X * World X) unit :=
  modify (fun st =>
    let self := fst st in
    (mk (annotator self) (history_ctx_len self)
        (annotation_logs self ++ [entry]) (conv_data_dict self),
     snd st)).

(** [self.annotator.speak(history)] *)
Definition annotator_speak {X} (history : list string)
  : M (t X * World X) string :=
  st <- get ;;
  on_snd (on_agents (actor_speak (annotator (fst st)) history)).

(** [__init__(annotator, conv_logs_path, history_ctx_len=4)] *)
Definition init {X} (annotator : IActor X) (conv_logs_path : string)
    (history_ctx_len : option Z) : M (World X) (t X) :=
  conv_data_dict <- json_load_file conv_logs_path ;;
  ret (mk annotator (default 4 history_ctx_len) [] conv_data_dict).

Section Methods.

(** [util.format_chat_message], [textwrap.fill] and the built-in
    [str] are not part of the modelled files. *)
Variable format_chat_message : pyval -> pyval -> string.
Variable textwrap_fill : string -> string.
Variable py_str : pyval -> string.

(** The body of the [for] loop of [begin_annotation]. *)
Definition annotate_entry {X} (verbose : bool)
    (ctx_history : deque.t string) (entry : pyval)
  : M (t X * World X) (deque.t string) :=
  '(username, message) <- lift_result (unpack2 entry) ;;
  let formatted_message := format_chat_message username message in
  let ctx_history := deque.append ctx_history formatted_message in
  annotation <- annotator_speak (deque.to_list ctx_history) ;;
  append_log (message, annotation) ;;
  (if verbose
   then on_snd (print (textwrap_fill formatted_message)) ;;
        on_snd (print annotation)
   else ret tt) ;;
  ret ctx_history.

(** [begin_annotation(verbose)] *)
Definition begin_annotation {X} (verbose : bool) : M (t X * World X) unit :=
  st <- get ;;
  let self := fst st in
  ctx_history <- lift_result (deque.new (history_ctx_len self)) ;;
  logs <- lift_result (py_getitem (conv_data_dict self) "logs") ;;
  entries <- lift_result (py_iter logs) ;;
  for_in entries ctx_history (annotate_entry verbose) ;;
  ret tt.

(** The tuple [(message, annotation)] as a value. *)
Definition log_entry (e : pyval * string) : pyval :=
  PTuple [fst e; PStr (snd e)].

(** [to_dict(timestamp_format)].  The dictionary returned holds the
    job's own list under ["logs"]; the value here is that list as it
    stands when [to_dict] is called. *)
Definition to_dict {X} (timestamp_format : string)
  : M (t X * World X) pyval :=
  st <- get ;;
  let self := fst st in
  conv_id <- lift_result (py_getitem (conv_data_dict self) "id") ;;
  ret (PDict
    [ ("conv_id", PStr (py_str conv_id));
      ("timestamp", PStr (clock (snd st) timestamp_format));
      ("annotator_type", PStr (actor_class_name (annotator self)));
      ("annotator_prompt", PStr (actor_describe (annotator self)));
      ("ctx_length", PInt (history_ctx_len self));
      ("logs", PList (map log_entry (annotation_logs self))) ]).

Definition default_timestamp_format : string := "%y-%m-%d-%H-%M".

(** [to_json_file(output_path)]; the parent directories that
    [util.ensure_parent_directories_exist] creates are not modelled. *)
Definition to_json_file {X} (output_path : string) : M (t X * World X) unit :=
  on_snd (open_for_writing output_path) ;;
  doc <- to_dict default_timestamp_format ;;
  on_snd (json_dump_file doc output_path).

End Methods.

End AnnotationConv.

(** ** sdl/conversation_io.py *)

Module LLMConvData.

(** A value annotated [float]: Python admits an [int] there too.  Rocq's
    [=] on these is sameness of the value held; Python's [==] is
    [num_eqb] below, under which a NaN differs from itself. *)
Inductive pynum : Type :=
| NInt (z : Z)
| NFloat (f : pyfloat).

(** An instance of the dataclass whose fields hold values of the
    annotated types.  Python's [==] between two of them is [eqb] below. *)
Record t : Type := mk {
  context : string;
  user_names : list string;
  user_attributes : list (list string);
  user_instructions : string;
  turn_manager_type : string;
  turn_manager_config : gmap string pynum;
  conv_len : Z;
  history_ctx_len : Z;
  moderator_name : option string;
  moderator_attributes : option (list string);
  moderator_instructions : option string
}.

Definition __post_init__ (self : t) : result unit :=
  if (length (user_names self) =? length (user_attributes self))%nat
  then Ok tt
  else Raise (AssertionError
    "Number of actor names and actor attribute lists must be the same").

(** The generated [__init__] followed by [__post_init__].  An optional
    argument left out is [None] here and takes its declared default. *)
Definition init (context : string) (user_names : list string)
    (user_attributes : list (list string)) (user_instructions : string)
    (turn_manager_type : string)
    (turn_manager_config : option (gmap string pynum))
    (conv_len history_ctx_len : option Z)
    (moderator_name : option string)
    (moderator_attributes : option (list string))
    (moderator_instructions : option string) : result t :=
  let self :=
    mk context user_names user_attributes user_instructions
       turn_manager_type (default ∅ turn_manager_config)
       (default 4 conv_len) (default 4 history_ctx_len)
       moderator_name moderator_attributes moderator_instructions in
  and_then (__post_init__ self) (fun _ => Ok self).

(** *** Values of the annotated types, to and from documents *)








Definition to_num (n : pynum) : pyval :=
  match n with NInt z => PInt z | NFloat f => PFloat f end.

Definition to_str_list (l : list string) : pyval := PList (map PStr l).

Definition to_optional {A} (f : A -> pyval) (o : option A) : pyval :=
  match o with Some a => f a | None => PNone end.

Definition to_dict_of {A} (f : A -> pyval) (m : gmap string A) : pyval :=
  PDict (map (fun kv => (fst kv, f (snd kv))) (map_to_list m)).

(** [dataclasses.fields(LLMConvData)], all of them [init] fields. *)
Definition field_names : list string :=
  [ "context"; "user_names"; "user_attributes"; "user_instructions";
    "turn_manager_type"; "turn_manager_config"; "conv_len";
    "history_ctx_len"; "moderator_name"; "moderator_attributes";
    "moderator_instructions" ].

Definition is_field (k : string) : bool :=
  existsb (String.eqb k) field_names.

(** [data_dict.items()] *)
Definition py_items (v : pyval) : result (list (string * pyval)) :=
  match v with
  | PDict items => Ok items
  | _ => Raise (AttributeError "object has no attribute 'items'")
  end.

(** *** The instance as the interpreter holds it

    The generated constructor checks no types: whatever value a keyword
    argument has is stored in the field.  [Raw.t] is that object; the
    typed record above describes the instances whose fields are of the
    annotated types. *)
Module Raw.

Record t : Type := mk {
  context : pyval;
  user_names : pyval;
  user_attributes : pyval;
  user_instructions : pyval;
  turn_manager_type : pyval;
  turn_manager_config : pyval;
  conv_len : pyval;
  history_ctx_len : pyval;
  moderator_name : pyval;
  moderator_attributes : pyval;
  moderator_instructions : pyval
}.

Definition __post_init__ (self : t) : result unit :=
  and_then (py_len (user_names self)) (fun names =>
  and_then (py_len (user_attributes self)) (fun attributes =>
  if (names =? attributes)%nat
  then Ok tt
  else Raise (AssertionError
    "Number of actor names and actor attribute lists must be the same"))).

(** A keyword argument without a default. *)
Definition required (kwargs : list (string * pyval)) (key : string)
  : result pyval :=
  match assoc key kwargs with
  | Some v => Ok v
  | None => Raise (TypeError "missing required positional argument")
  end.

(** A keyword argument with a default. *)
Definition with_default (kwargs : list (string * pyval)) (key : string)
    (value : pyval) : pyval :=
  default value (assoc key kwargs).

(** The constructor called with a dictionary of keyword arguments, as
    [from_json_file] does: the generated [__init__], then [__post_init__]. *)
Definition init_kwargs (kwargs : list (string * pyval)) : result t :=
  if negb (forallb (fun kv => is_field (fst kv)) kwargs)
  then Raise (TypeError "got an unexpected keyword argument")
  else
    and_then (required kwargs "context") (fun context =>
    and_then (required kwargs "user_names") (fun user_names =>
    and_then (required kwargs "user_attributes") (fun user_attributes =>
    and_then (required kwargs "user_instructions") (fun user_instructions =>
    and_then (required kwargs "turn_manager_type") (fun turn_manager_type =>
    let self :=
      mk context user_names user_attributes user_instructions
         turn_manager_type
         (with_default kwargs "turn_manager_config" (PDict []))
         (with_default kwargs "conv_len" (PInt 4))
         (with_default kwargs "history_ctx_len" (PInt 4))
         (with_default kwargs "moderator_name" PNone)
         (with_default kwargs "moderator_attributes" PNone)
         (with_default kwargs "moderator_instructions" PNone) in
    and_then (__post_init__ self) (fun _ => Ok self)))))).

(** [dataclasses.asdict(self)] *)
Definition asdict (self : t) : pyval :=
  PDict
    [ ("context", context self);
      ("user_names", user_names self);
      ("user_attributes", user_attributes self);
      ("user_instructions", user_instructions self);
      ("turn_manager_type", turn_manager_type self);
      ("turn_manager_config", turn_manager_config self);
      ("conv_len", conv_len self);
      ("history_ctx_len", history_ctx_len self);
      ("moderator_name", moderator_name self);
      ("moderator_attributes", moderator_attributes self);
      ("moderator_instructions", moderator_instructions self) ].

End Raw.

(** The typed record as the object it stands for, and back. *)
Definition to_raw (self : t) : Raw.t :=
  Raw.mk (PStr (context self)) (to_str_list (user_names self))
    (PList (map to_str_list (user_attributes self)))
    (PStr (user_instructions self)) (PStr (turn_manager_type self))
    (to_dict_of to_num (turn_manager_config self))
    (PInt (conv_len self)) (PInt (history_ctx_len self))
    (to_optional PStr (moderator_name self))
    (to_optional to_str_list (moderator_attributes self))
    (to_optional PStr (moderator_instructions self)).


(** [from_json_file(input_file_path)] *)
Definition from_json_file {X} (input_file_path : string) : M (World X) Raw.t :=
  data_dict <- json_load_file input_file_path ;;
  items <- lift_result (py_items data_dict) ;;
  let filtered_arg_dict := List.filter (fun kv => is_field (fst kv)) items in
  lift_result (Raw.init_kwargs filtered_arg_dict).

(** *** Equality of instances

    [==] on numbers: integers by value, floats as IEEE 754 has it (a NaN
    is equal to nothing, itself included), an integer and a float by the
    exact value of the float. *)
Definition is_nan (n : pynum) : bool :=
  match n with NFloat SpecFloat.S754_nan => true | _ => false end.

Definition int_float_eqb (z : Z) (f : pyfloat) : bool :=
  match f with
  | SpecFloat.S754_zero _ => z =? 0
  | SpecFloat.S754_finite s m e =>
      let v := if s then Z.neg m else Z.pos m in
      if 0 <=? e then z =? v * 2 ^ e else z * 2 ^ (- e) =? v
  | _ => false
  end.

Definition num_eqb (a b : pynum) : bool :=
  match a, b with
  | NInt x, NInt y => x =? y
  | NFloat f, NFloat g => SpecFloat.SFeqb f g
  | NInt x, NFloat f | NFloat f, NInt x => int_float_eqb x f
  end.

(** [==] on two dictionaries: the same number of keys, and every key of
    the first is in the second with an equal value. *)
Definition config_eqb (a b : gmap string pynum) : bool :=
  (size a =? size b)%nat
  && forallb (fun kv => match b !! fst kv with
                        | Some v => num_eqb (snd kv) v
                        | None => false
                        end) (map_to_list a).

(** The generated [__eq__], between two instances that share no float
    object, as an instance and the one read back from its file: the
    fields are compared in order with [==]. *)
Definition eqb (a b : t) : bool :=
  String.eqb (context a) (context b)
  && bool_decide (user_names a = user_names b)
  && bool_decide (user_attributes a = user_attributes b)
  && String.eqb (user_instructions a) (user_instructions b)
  && String.eqb (turn_manager_type a) (turn_manager_type b)
  && config_eqb (turn_manager_config a) (turn_manager_config b)
  && (conv_len a =? conv_len b)
  && (history_ctx_len a =? history_ctx_len b)
  && bool_decide (moderator_name a = moderator_name b)
  && bool_decide (moderator_attributes a = moderator_attributes b)
  && bool_decide (moderator_instructions a = moderator_instructions b).

(** No value of the dictionary is a NaN. *)
Definition nan_free (m : gmap string pynum) : bool :=
  forallb (fun kv => negb (is_nan (snd kv))) (map_to_list m).

(** [dataclasses.asdict(self)] *)
Definition asdict (self : t) : pyval :=
  PDict
    [ ("context", PStr (context self));
      ("user_names", to_str_list (user_names self));
      ("user_attributes", PList (map to_str_list (user_attributes self)));
      ("user_instructions", PStr (user_instructions self));
      ("turn_manager_type", PStr (turn_manager_type self));
      ("turn_manager_config", to_dict_of to_num (turn_manager_config self));
      ("conv_len", PInt (conv_len self));
      ("history_ctx_len", PInt (history_ctx_len self));
      ("moderator_name", to_optional PStr (moderator_name self));
      ("moderator_attributes",
         to_optional to_str_list (moderator_attributes self));
      ("moderator_instructions",
         to_optional PStr (moderator_instructions self)) ].

(** [to_json_file(self, output_path)] *)
Definition to_json_file {X} (self : t) (output_path : string)
  : M (World X) unit :=
  open_for_writing output_path ;;
  json_dump_file (asdict self) output_path.

End LLMConvData.

Module LLMConvGenerator.

Section Generator.

(** [turn_manager.turn_manager_factory] and the constructor of
    [conversation.Conversation] are not part of the modelled files. *)
Variable TurnManager : Type.
Variable turn_manager_factory : string -> list string -> result TurnManager.
Variable Conversation : Type.
Variable Conversation_init :
  TurnManager -> list LlmActor.t -> option LlmActor.t -> Z -> Z ->
  result Conversation.

Record t : Type := mk {
  user_model : LlamaModel;
  moderator_model : option LlamaModel;
  data : LLMConvData.t;
  next_turn_manager : TurnManager
}.

(** [__init__(data, user_model, moderator_model)] *)
Definition init (data : LLMConvData.t) (user_model : option LlamaModel)
    (moderator_model : option LlamaModel) : result t :=
  match user_model with
  | None => Raise (AssertionError "User model cannot be None")
  | Some user_model =>
      if negb (bool_decide (moderator_model = None)
               && negb (bool_decide (LLMConvData.moderator_name data = None)))
      then
        and_then
          (turn_manager_factory (LLMConvData.turn_manager_type data)
                                (LLMConvData.user_names data))
          (fun next_turn_manager =>
             Ok (mk user_model moderator_model data next_turn_manager))
      else Raise (AssertionError "Moderator agent was not given a model.")
  end.

(** [for i in range(len(self.data.user_names))]: the users built so
    far are [user_list]; indexing past the end of [user_attributes]
    raises. *)
Fixpoint build_users (self : t) (indices : list nat)
    (user_list : list LlmActor.t) : result (list LlmActor.t) :=
  match indices with
  | [] => Ok user_list
  | i :: rest =>
      match LLMConvData.user_names (data self) !! i,
            LLMConvData.user_attributes (data self) !! i with
      | Some name, Some attributes =>
          build_users self rest
            (user_list ++
             [LlmActor.mk LlmActor.LLMUser (user_model self) name attributes
                (LLMConvData.context (data self))
                (LLMConvData.user_instructions (data self))])
      | _, _ => Raise (IndexError "list index out of range")
      end
  end.

(** [produce_conversation()] *)
Definition produce_conversation (self : t) : result Conversation :=
  and_then
    (build_users self
       (seq 0 (length (LLMConvData.user_names (data self)))) [])
    (fun user_list =>
       let moderator :=
         match LLMConvData.moderator_name (data self),
               moderator_model self,
               LLMConvData.moderator_attributes (data self),
               LLMConvData.moderator_instructions (data self) with
         | Some name, Some model, Some attributes, Some instructions =>
             Some (LlmActor.mk LlmActor.LLMUser model name attributes
                     (LLMConvData.context (data self)) instructions)
         | _, _, _, _ => None
         end in
       Conversation_init (next_turn_manager self) user_list moderator
         (LLMConvData.history_ctx_len (data self))
         (LLMConvData.conv_len (data self))).

End Generator.

End LLMConvGenerator.

(** ** Vocabulary of the properties *)

(** The last [n] items of a list, in order. *)
Definition last_n {A} (n : nat) (l : list A) : list A :=
  drop (length l - n) l.

(** A computation that returns, whatever the state. *)
Definition never_raises {S A} (m : M S A) : Prop :=
  forall s, exists a s', m s = (Ok a, s').

(** An annotator that records what it is asked and what it answers, and
    otherwise behaves as the annotator it wraps. *)
Abbreviation SpyLog := (list (list string * result string)).

Definition spy {X} (a : IActor X) : IActor (X * SpyLog) :=
  mkActor (actor_class_name a)
          (fun history st =>
             let '(r, x') := actor_speak a history (fst st) in
             (r, (x', snd st ++ [(history, r)])))
          (actor_describe a).

(** The window an annotation run that has taken [i] transcript entries
    should show: the last [min k i] of the first [i] formatted entries. *)
Definition window (k : Z) (formatted : list string) (i : nat) : list string :=
  last_n (Nat.min (Z.to_nat k) i) (take i formatted).

(** The successive contents of a deque that takes the entries one by one. *)
Fixpoint windows_from (d : deque.t string) (formatted : list string)
  : list (list string) :=
  match formatted with
  | [] => []
  | f :: rest =>
      let d' := deque.append d f in
      deque.to_list d' :: windows_from d' rest
  end.

(** [speak] called on each history in turn; the answers, in order. *)
Fixpoint speak_each {X} (a : IActor X) (histories : list (list string))
  : M X (list string) :=
  match histories with
  | [] => ret []
  | h :: rest =>
      r <- actor_speak a h ;;
      rs <- speak_each a rest ;;
      ret (r :: rs)
  end.

(** What a verbose run prints for the entries it went through. *)
Fixpoint echoed (fill : string -> string) (verbose : bool)
    (formatted annotations : list string) : list string :=
  match formatted, annotations with
  | f :: fs, r :: rs =>
      (if verbose then [fill f; r] else []) ++ echoed fill verbose fs rs
  | _, _ => []
  end.

(** The transcript array built from (speaker, message) pairs. *)
Definition pair_entry (p : pyval * pyval) : pyval := PList [fst p; snd p].

Definition transcript (pairs : list (pyval * pyval)) : pyval :=
  PList (map pair_entry pairs).

(** The formatted entries and the raw messages of a transcript. *)
Definition formatted (format_chat_message : pyval -> pyval -> string)
    (pairs : list (pyval * pyval)) : list string :=
  map (fun p => format_chat_message (fst p) (snd p)) pairs.

Definition messages (pairs : list (pyval * pyval)) : list pyval :=
  map snd pairs.

(** The receiver with another annotation log; the world with more lines
    on its standard output. *)
Definition with_logs {X} (self : AnnotationConv.t X)
    (logs : list (pyval * string)) : AnnotationConv.t X :=
  AnnotationConv.mk (AnnotationConv.annotator self)
    (AnnotationConv.history_ctx_len self) logs
    (AnnotationConv.conv_data_dict self).

Definition printed {X} (w : World X) (lines : list string) : World X :=
  mkWorld (files w) (stdout w ++ lines) (clock w) (agents w).

(** The histories a spy was asked about, in order. *)
Definition spied_histories {X} (w : World (X * SpyLog)) : list (list string) :=
  map fst (snd (agents w)).

(** The answers a spy gave, in order. *)
Definition spied_answers {X} (w : World (X * SpyLog)) : list (result string) :=
  map snd (snd (agents w)).

(** The world of a spy that has not been called yet. *)
Definition spied {X} (w : World X) : World (X * SpyLog) :=
  set_agents w (agents w, []).

(** A spied job and its world, with the spy taken away: the job with the
    annotator [a] itself, and the world without the spy's notes. *)
Definition unspied {X} (a : IActor X)
    (st : AnnotationConv.t (X * SpyLog) * World (X * SpyLog))
  : AnnotationConv.t X * World X :=
  (AnnotationConv.mk a (AnnotationConv.history_ctx_len (fst st))
     (AnnotationConv.annotation_logs (fst st))
     (AnnotationConv.conv_data_dict (fst st)),
   set_agents (snd st) (fst (agents (snd st)))).

(** The three moderator fields are all present or all absent. *)
Definition moderator_all_or_none (d : LLMConvData.t) : Prop :=
  (LLMConvData.moderator_name d <> None
   /\ LLMConvData.moderator_attributes d <> None
   /\ LLMConvData.moderator_instructions d <> None)
  \/ (LLMConvData.moderator_name d = None
      /\ LLMConvData.moderator_attributes d = None
      /\ LLMConvData.moderator_instructions d = None).

(** The configuration with its three moderator fields set to [None]. *)
Definition clear_moderator (d : LLMConvData.t) : LLMConvData.t :=
  LLMConvData.mk (LLMConvData.context d) (LLMConvData.user_names d)
    (LLMConvData.user_attributes d) (LLMConvData.user_instructions d)
    (LLMConvData.turn_manager_type d) (LLMConvData.turn_manager_config d)
    (LLMConvData.conv_len d) (LLMConvData.history_ctx_len d)
    None None None.

(** An entry of an exported annotation log read back as a pair; the
    entry is a tuple in the dictionary and an array in the file. *)
Definition entry_of (v : pyval) : option (pyval * string) :=
  match v with
  | PTuple [m; PStr a] | PList [m; PStr a] => Some (m, a)
  | _ => None
  end.

(** The ["logs"] field of an exported document, read back. *)
Definition read_logs (export : pyval) : option (list (pyval * string)) :=
  match py_getitem export "logs" with
  | Ok (PList entries) => mapM entry_of entries
  | _ => None
  end.

(** A value [json.load] can return: there is no tuple anywhere in it. *)
Fixpoint is_json (v : pyval) : bool :=
  match v with
  | PTuple _ => false
  | PList l => forallb is_json l
  | PDict items => forallb (fun kv => is_json (snd kv)) items
  | _ => true
  end.

(** What a run of a job may do to the job and its world: the annotation
    log and the standard output grow at their ends, the agents move on,
    and nothing else changes. *)
Definition job_extends {X} (st st' : AnnotationConv.t X * World X) : Prop :=
  AnnotationConv.annotator (fst st') = AnnotationConv.annotator (fst st)
  /\ AnnotationConv.history_ctx_len (fst st')
     = AnnotationConv.history_ctx_len (fst st)
  /\ AnnotationConv.conv_data_dict (fst st')
     = AnnotationConv.conv_data_dict (fst st)
  /\ files (snd st') = files (snd st)
  /\ clock (snd st') = clock (snd st)
  /\ (exists added,
        AnnotationConv.annotation_logs (fst st')
        = AnnotationConv.annotation_logs (fst st) ++ added)
  /\ (exists lines, stdout (snd st') = stdout (snd st) ++ lines).

(** The call an LLM actor issues when asked to speak on a history. *)
Definition prompt_call (a : LlmActor.t) (history : list string) : PromptCall :=
  mkCall (model_id (LlmActor.model a))
    [LlmActor._system_prompt a; LlmActor._message_prompt a history]
    ["User"].

(** The fields of [LLMConvData] that have no default. *)
Definition required_fields : list string :=
  [ "context"; "user_names"; "user_attributes"; "user_instructions";
    "turn_manager_type" ].

(** The user built for a name and its attributes. *)
Definition user_of (user_model : LlamaModel) (d : LLMConvData.t)
    (name : string) (attributes : list string) : LlmActor.t :=
  LlmActor.mk LlmActor.LLMUser user_model name attributes
    (LLMConvData.context d) (LLMConvData.user_instructions d).

(** A transcript document with one entry that does not unpack. *)
Definition demo_broken_doc : pyval :=
  PDict [ ("id", PInt 8);
          ("logs", PList [ PList [PStr "a"; PStr "x"];
                           PList [PStr "b"; PStr "y"; PStr "z"];
                           PList [PStr "c"; PStr "w"] ]) ].

(** A model that answers its first prompt and fails from then on. *)
Definition demo_flaky_model : LlamaModel :=
  mkModel "flaky"
    (fun log _ _ =>
       match log with
       | [] => Ok "fine"
       | _ => Raise (ValueError "backend unavailable")
       end).

Definition demo_flaky_annotator : LlmActor.t :=
  LlmActor.mk LlmActor.LLMAnnotator demo_flaky_model "annotator" ["expert"]
    "a forum thread" "rate the toxicity of the last comment".

(** ** Fixtures for the examples *)

(** A stand-in for [util.format_chat_message]: "speaker: message". *)
Definition demo_format (username message : pyval) : string :=
  match username, message with
  | PStr u, PStr m => u +:+ ": " +:+ m
  | _, _ => ""
  end.

Definition demo_model : LlamaModel :=
  mkModel "llama" (fun _ _ _ => Ok "neutral").

Definition demo_annotator : LlmActor.t :=
  LlmActor.mk LlmActor.LLMAnnotator demo_model "annotator" ["expert"]
    "a forum thread" "rate the toxicity of the last comment".

Definition demo_pairs : list (pyval * pyval) :=
  [ (PStr "a", PStr "x"); (PStr "b", PStr "y"); (PStr "c", PStr "z") ].

Definition demo_doc : pyval :=
  PDict [ ("id", PInt 7); ("logs", transcript demo_pairs) ].

Definition demo_world : World Agents :=
  mkWorld ∅ [] (fun _ => "24-01-01-00-00") [].

Definition demo_config : LLMConvData.t :=
  LLMConvData.mk "a forum thread" ["alice"; "bob"]
    [["calm"]; ["curious"; "blunt"]] "be brief" "round_robin"
    {[ "seed" := LLMConvData.NInt 3 ]} 6 2
    (Some "mod") (Some ["patient"]) (Some "keep it civil").


(** The same roster with only the moderator's name given. *)
Definition demo_partial_config : LLMConvData.t :=
  LLMConvData.mk "a forum thread" ["alice"; "bob"]
    [["calm"]; ["curious"; "blunt"]] "be brief" "round_robin"
    ∅ 4 4 (Some "mod") None None.

(** Stand-ins for the turn-manager factory (the roster itself) and for
    the constructor of [Conversation] (the arguments it was given). *)
Definition demo_factory (tag : string) (names : list string)
  : result (list string) := Ok names.

Definition demo_Conversation : Type :=
  list string * list LlmActor.t * option LlmActor.t * Z * Z.

Definition demo_Conversation_init (tm : list string) (users : list LlmActor.t)
    (moderator : option LlmActor.t) (history_context_len conv_len : Z)
  : result demo_Conversation :=
  Ok (tm, users, moderator, history_context_len, conv_len).

(** A transcript document without an id. *)
Definition demo_doc_no_id : pyval :=
  PDict [ ("logs", transcript demo_pairs) ].

(** A configuration document with the required fields, a stray key and
    a [conv_len] that is a string; the instance read from it; a document
    that lacks ["user_names"]; and a world that holds both documents. *)
Definition demo_min_items : list (string * pyval) :=
  [ ("context", PStr "c"); ("comment", PStr "draft");
    ("user_names", PList [PStr "a"]);
    ("user_attributes", PList [PList [PStr "x"]]);
    ("user_instructions", PStr "i");
    ("turn_manager_type", PStr "round_robin");
    ("conv_len", PStr "4") ].

Definition demo_min_config : LLMConvData.Raw.t :=
  LLMConvData.Raw.mk (PStr "c") (PList [PStr "a"]) (PList [PList [PStr "x"]])
    (PStr "i") (PStr "round_robin") (PDict []) (PStr "4") (PInt 4)
    PNone PNone PNone.

Definition demo_short_items : list (string * pyval) :=
  [ ("context", PStr "c");
    ("user_attributes", PList [PList [PStr "x"]]);
    ("user_instructions", PStr "i");
    ("turn_manager_type", PStr "round_robin") ].

Definition demo_config_world : World unit :=
  mkWorld (<["in.json" := Some (PDict demo_min_items)]>
             (<["short.json" := Some (PDict demo_short_items)]> ∅))
    [] (fun _ => "") tt.

(** A configuration changed after its construction: a name was added
    and no attribute list. *)
Definition demo_stale_config : LLMConvData.t :=
  LLMConvData.mk "a forum thread" ["alice"; "bob"; "carol"]
    [["calm"]; ["curious"; "blunt"]] "be brief" "round_robin"
    ∅ 4 4 None None None.

(** A world whose file "t.json" holds the demo transcript. *)
Definition demo_file_world : World Agents :=
  mkWorld (<["t.json" := Some demo_doc]> ∅) []
    (fun _ => "24-01-01-00-00") [].

(** * Properties *)

(** ** Lists and deques *)

Section Windows.

Context {A : Type}.
Implicit Types (l pre : list A) (x : A) (d : deque.t A).

Lemma last_n_length n l : length (last_n n l) = Nat.min n (length l).
Proof. unfold last_n. rewrite length_drop. lia. Qed.

Lemma last_n_all n l : (length l <= n)%nat -> last_n n l = l.
Proof.
  intros Hn. unfold last_n.
  replace (length l - n)%nat with 0%nat by lia. reflexivity.
Qed.

Lemma last_n_min n l : last_n (Nat.min n (length l)) l = last_n n l.
Proof. unfold last_n. f_equal. lia. Qed.

(** Pushing onto the last [n] items and keeping the last [n] again is
    keeping the last [n] of the longer list. *)
Lemma last_n_snoc n pre x :
  last_n n (last_n n pre ++ [x]) = last_n n (pre ++ [x]).
Proof.
  unfold last_n at 1 3.
  rewrite !length_app, last_n_length. simpl length.
  destruct (Nat.le_gt_cases (length pre) n) as [Hle | Hgt].
  - rewrite (last_n_all n pre Hle). f_equal. lia.
  - unfold last_n.
    destruct n as [| n].
    + rewrite !drop_ge by (rewrite ?length_app, ?length_drop; simpl; lia).
      reflexivity.
    + rewrite !drop_app_le by (rewrite ?length_drop; lia).
      rewrite drop_drop. do 2 f_equal. lia.
Qed.

(** [append] keeps the last [maxlen] items of what it is given. *)
Lemma deque_append_items d x :
  0 <= deque.maxlen d ->
  (length (deque.items d) <= Z.to_nat (deque.maxlen d))%nat ->
  deque.items (deque.append d x)
  = last_n (Z.to_nat (deque.maxlen d)) (deque.items d ++ [x]).
Proof.
  intros Hk Hlen. unfold deque.append, last_n.
  rewrite length_app. simpl length.
  destruct (Z.ltb_spec (deque.maxlen d)
              (Z.of_nat (length (deque.items d) + 1))) as [Hlt | Hge]; simpl.
  - replace (length (deque.items d) + 1 - Z.to_nat (deque.maxlen d))%nat
      with 1%nat by lia.
    destruct (deque.items d ++ [x]); reflexivity.
  - replace (length (deque.items d) + 1 - Z.to_nat (deque.maxlen d))%nat
      with 0%nat by lia.
    reflexivity.
Qed.

Lemma deque_append_maxlen d x : deque.maxlen (deque.append d x) = deque.maxlen d.
Proof. unfold deque.append. destruct (_ <? _); reflexivity. Qed.

(** The deque never outgrows its bound. *)
Lemma deque_append_bounded d x :
  0 <= deque.maxlen d ->
  (length (deque.items d) <= Z.to_nat (deque.maxlen d))%nat ->
  (length (deque.items (deque.append d x)) <= Z.to_nat (deque.maxlen d))%nat.
Proof.
  intros Hk Hlen. rewrite deque_append_items, last_n_length by assumption. lia.
Qed.

(** A deque that holds the last [k] items of [pre] holds, after an
    append, the last [k] items of [pre ++ [x]]. *)
Lemma deque_append_last_n d x pre :
  0 <= deque.maxlen d ->
  deque.items d = last_n (Z.to_nat (deque.maxlen d)) pre ->
  deque.items (deque.append d x)
  = last_n (Z.to_nat (deque.maxlen d)) (pre ++ [x]).
Proof.
  intros Hk Hitems.
  rewrite deque_append_items; [| assumption |].
  - rewrite Hitems. apply last_n_snoc.
  - rewrite Hitems, last_n_length. lia.
Qed.

End Windows.

Lemma map_fst_combine {A B} (l : list A) (l' : list B) :
  length l = length l' -> map fst (combine l l') = l.
Proof.
  revert l'. induction l as [| x l IH]; intros [| y l'] Hlen;
    simpl in *; try discriminate; [reflexivity |].
  f_equal. apply IH. lia.
Qed.

Lemma map_snd_combine {A B} (l : list A) (l' : list B) :
  length l = length l' -> map snd (combine l l') = l'.
Proof.
  revert l'. induction l as [| x l IH]; intros [| y l'] Hlen;
    simpl in *; try discriminate; [reflexivity |].
  f_equal. apply IH. lia.
Qed.

Lemma windows_from_last_n (formatted pre : list string) (d : deque.t string) :
  0 <= deque.maxlen d ->
  deque.items d = last_n (Z.to_nat (deque.maxlen d)) pre ->
  windows_from d formatted
  = map (fun j => last_n (Z.to_nat (deque.maxlen d)) (pre ++ take j formatted))
        (seq 1 (length formatted)).
Proof.
  revert pre d. induction formatted as [| f rest IH]; intros pre d Hk Hitems.
  - reflexivity.
  - cbn [windows_from length seq map].
    pose proof (deque_append_last_n d f pre Hk Hitems) as Hstep.
    f_equal.
    + unfold deque.to_list. rewrite Hstep. reflexivity.
    + rewrite (IH (pre ++ [f]) (deque.append d f));
        rewrite ?deque_append_maxlen; try assumption.
      rewrite <- (seq_shift (length rest) 1), map_map.
      apply map_ext. intros j. cbn [take]. rewrite <- app_assoc. reflexivity.
Qed.

Lemma windows_from_length (formatted : list string) (d : deque.t string) :
  length (windows_from d formatted) = length formatted.
Proof.
  revert d. induction formatted as [| f rest IH]; intros d; simpl;
    [reflexivity | f_equal; apply IH].
Qed.

(** From an empty deque, the successive windows are the last [min k i]
    of the first [i] entries, for [i = 1 .. n]. *)
Lemma windows_from_empty (k : Z) (formatted : list string) :
  0 <= k ->
  windows_from (deque.mk k []) formatted
  = map (window k formatted) (seq 1 (length formatted)).
Proof.
  intros Hk.
  rewrite (windows_from_last_n formatted [] (deque.mk k [])) by (simpl; auto).
  apply map_ext_in. intros i Hi. apply in_seq in Hi. simpl.
  unfold window.
  rewrite <- (last_n_min (Z.to_nat k) (take i formatted)).
  rewrite length_take. do 2 f_equal. lia.
Qed.

Lemma window_bounded (k : Z) (formatted : list string) (i : nat) :
  (length (window k formatted i) <= Z.to_nat k)%nat.
Proof. unfold window. rewrite last_n_length. lia. Qed.

(** ** The monad *)

Lemma bind_ok {S A B} (m : M S A) (f : A -> M S B) s a s' :
  m s = (Ok a, s') -> bind m f s = f a s'.
Proof. intros H. unfold bind. rewrite H. reflexivity. Qed.

Lemma bind_raise {S A B} (m : M S A) (f : A -> M S B) s e s' :
  m s = (Raise e, s') -> bind m f s = (Raise e, s').
Proof. intros H. unfold bind. rewrite H. reflexivity. Qed.

Lemma for_in_nil {S A B} (acc : B) (body : B -> A -> M S B) :
  for_in [] acc body = ret acc.
Proof. reflexivity. Qed.

Lemma for_in_cons {S A B} x (xs : list A) (acc : B) (body : B -> A -> M S B) :
  for_in (x :: xs) acc body = bind (body acc x) (fun acc' => for_in xs acc' body).
Proof. reflexivity. Qed.

(** ** One pass of the annotation loop *)

Section AnnotationLoop.

Context {X : Type}.
Variable format_chat_message : pyval -> pyval -> string.
Variable textwrap_fill : string -> string.

Let annotate_entry :=
  @AnnotationConv.annotate_entry format_chat_message textwrap_fill X.
Let begin_annotation :=
  @AnnotationConv.begin_annotation format_chat_message textwrap_fill X.

Implicit Types (self : AnnotationConv.t X) (w : World X)
  (d : deque.t string) (pairs : list (pyval * pyval)).

Lemma annotate_entry_ok verbose d u m self w r x' :
  let f := format_chat_message u m in
  actor_speak (AnnotationConv.annotator self)
              (deque.to_list (deque.append d f)) (agents w) = (Ok r, x') ->
  annotate_entry verbose d (pair_entry (u, m)) (self, w)
  = (Ok (deque.append d f),
     (with_logs self (AnnotationConv.annotation_logs self ++ [(m, r)]),
      printed (set_agents w x')
              (if verbose then [textwrap_fill f; r] else []))).
Proof.
  intros f H. subst annotate_entry f.
  unfold AnnotationConv.annotate_entry, AnnotationConv.annotator_speak,
    AnnotationConv.append_log, bind, lift_result, get, on_snd, on_agents,
    modify, ret, print; cbn.
  rewrite H. destruct verbose; cbn; unfold with_logs, printed, set_agents; cbn.
  - rewrite <- app_assoc. reflexivity.
  - rewrite app_nil_r. reflexivity.
Qed.

Lemma annotate_entry_raise verbose d u m self w e x' :
  let f := format_chat_message u m in
  actor_speak (AnnotationConv.annotator self)
              (deque.to_list (deque.append d f)) (agents w) = (Raise e, x') ->
  annotate_entry verbose d (pair_entry (u, m)) (self, w)
  = (Raise e, (self, set_agents w x')).
Proof.
  intros f H. subst annotate_entry f.
  unfold AnnotationConv.annotate_entry, AnnotationConv.annotator_speak,
    bind, lift_result, get, on_snd, on_agents; cbn.
  rewrite H. reflexivity.
Qed.

Lemma with_logs_same self :
  with_logs self (AnnotationConv.annotation_logs self) = self.
Proof. destruct self; reflexivity. Qed.

Lemma printed_nothing w : printed (set_agents w (agents w)) [] = w.
Proof.
  destruct w; unfold printed, set_agents; cbn. rewrite app_nil_r. reflexivity.
Qed.

(** If the annotator answers every window, the loop appends one log
    entry per transcript entry and prints what it is asked to. *)
Lemma annotate_all_ok verbose pairs : forall d self w rs x',
  speak_each (AnnotationConv.annotator self)
    (windows_from d (formatted format_chat_message pairs)) (agents w)
  = (Ok rs, x') ->
  for_in (map pair_entry pairs) d (annotate_entry verbose) (self, w)
  = (Ok (fold_left deque.append (formatted format_chat_message pairs) d),
     (with_logs self
        (AnnotationConv.annotation_logs self ++ combine (messages pairs) rs),
      printed (set_agents w x')
        (echoed textwrap_fill verbose
           (formatted format_chat_message pairs) rs))).
Proof.
  induction pairs as [| [u m] rest IH]; intros d self w rs x' Hall.
  - cbn in Hall. injection Hall as <- <-. cbn.
    rewrite app_nil_r, with_logs_same, printed_nothing. reflexivity.
  - cbn [formatted map windows_from speak_each fst snd] in Hall.
    unfold bind at 1 in Hall.
    destruct (actor_speak _ _ (agents w)) as [[r | e] x1] eqn:Hspeak;
      [| discriminate].
    unfold bind at 1 in Hall.
    destruct (speak_each _ _ x1) as [[rs' | e] x2] eqn:Hrest;
      [| discriminate].
    injection Hall as <- <-.
    cbn [map]. rewrite for_in_cons.
    erewrite bind_ok by (apply annotate_entry_ok; exact Hspeak).
    erewrite IH by exact Hrest.
    cbn. unfold with_logs, printed, set_agents; cbn.
    rewrite <- !app_assoc. reflexivity.
Qed.

(** An annotator that never raises answers every history. *)
Lemma speak_each_total (a : IActor X) :
  (forall h, never_raises (actor_speak a h)) ->
  forall histories x, exists rs x',
    speak_each a histories x = (Ok rs, x') /\ length rs = length histories.
Proof.
  intros Hnr. induction histories as [| h rest IH]; intros x.
  - exists [], x. split; reflexivity.
  - destruct (Hnr h x) as (r & x1 & Hr).
    destruct (IH x1) as (rs & x2 & Hrs & Hlen).
    exists (r :: rs), x2. split.
    + cbn. erewrite bind_ok by exact Hr. erewrite bind_ok by exact Hrs.
      reflexivity.
    + simpl. f_equal. exact Hlen.
Qed.

Lemma deque_new_ok (k : Z) :
  0 <= k -> deque.new k = Ok (deque.mk k ([] : list string)).
Proof.
  intros Hk. unfold deque.new.
  destruct (Z.ltb_spec k 0); [lia | reflexivity].
Qed.

(** The whole of [begin_annotation], for an annotator that answers. *)
Lemma begin_annotation_ok verbose a k logs doc pairs w rs x' :
  0 <= k ->
  py_getitem doc "logs" = Ok (transcript pairs) ->
  speak_each a
    (map (window k (formatted format_chat_message pairs))
         (seq 1 (length pairs))) (agents w)
  = (Ok rs, x') ->
  begin_annotation verbose (AnnotationConv.mk a k logs doc, w)
  = (Ok tt,
     (AnnotationConv.mk a k (logs ++ combine (messages pairs) rs) doc,
      printed (set_agents w x')
        (echoed textwrap_fill verbose
           (formatted format_chat_message pairs) rs))).
Proof.
  intros Hk Hlogs Hall. subst begin_annotation.
  unfold AnnotationConv.begin_annotation.
  unfold bind at 1, get. cbn [fst AnnotationConv.history_ctx_len
    AnnotationConv.conv_data_dict].
  rewrite (deque_new_ok k Hk), Hlogs.
  unfold bind at 1, lift_result. unfold bind at 1. unfold bind at 1.
  cbn [transcript py_iter].
  unfold bind at 1.
  erewrite (annotate_all_ok verbose pairs (deque.mk k [])).
  - reflexivity.
  - cbn [AnnotationConv.annotator].
    rewrite windows_from_empty by assumption.
    unfold formatted at 2. rewrite length_map. exact Hall.
Qed.

End AnnotationLoop.

(** ** Runs observed through a spy *)

Section SpiedRuns.

Context {X : Type}.
Variable format_chat_message : pyval -> pyval -> string.
Variable textwrap_fill : string -> string.

Let annotate_entry :=
  @AnnotationConv.annotate_entry format_chat_message textwrap_fill (X * SpyLog).
Let begin_annotation :=
  @AnnotationConv.begin_annotation format_chat_message textwrap_fill (X * SpyLog).

Implicit Types (a : IActor X) (w : World (X * SpyLog)).

Lemma spy_speak_ok a h x log r x' :
  actor_speak a h x = (Ok r, x') ->
  actor_speak (spy a) h (x, log) = (Ok r, (x', log ++ [(h, Ok r)])).
Proof. intros H. cbn. rewrite H. reflexivity. Qed.

Lemma spy_never_raises a :
  (forall h, never_raises (actor_speak a h)) ->
  forall h, never_raises (actor_speak (spy a) h).
Proof.
  intros Hnr h [x log]. destruct (Hnr h x) as (r & x' & Hr).
  eexists _, _. apply spy_speak_ok. exact Hr.
Qed.

(** The spy answers as the annotator it wraps, and logs each exchange. *)
Lemma speak_each_spy a histories : forall x log rs x',
  speak_each a histories x = (Ok rs, x') ->
  speak_each (spy a) histories (x, log)
  = (Ok rs, (x', log ++ combine histories (map Ok rs))).
Proof.
  induction histories as [| h rest IH]; intros x log rs x' Hall.
  - cbn in Hall. injection Hall as <- <-. cbn. rewrite app_nil_r. reflexivity.
  - cbn [speak_each] in Hall. unfold bind at 1 in Hall.
    destruct (actor_speak a h x) as [[r | e] x1] eqn:Hr; [| discriminate].
    unfold bind at 1 in Hall.
    destruct (speak_each a rest x1) as [[rs' | e] x2] eqn:Hrs; [| discriminate].
    injection Hall as <- <-.
    cbn [speak_each].
    erewrite bind_ok by (apply spy_speak_ok; exact Hr).
    erewrite bind_ok by (apply IH; exact Hrs).
    cbn. rewrite <- app_assoc. reflexivity.
Qed.

(** A full pass over the transcript by a spied annotator that answers:
    one log entry per message, one recorded call per window. *)
Lemma begin_annotation_spied verbose a k logs doc pairs w :
  0 <= k ->
  py_getitem doc "logs" = Ok (transcript pairs) ->
  (forall h, never_raises (actor_speak a h)) ->
  let windows :=
    map (window k (formatted format_chat_message pairs))
        (seq 1 (length pairs)) in
  exists rs x',
    length rs = length pairs /\
    begin_annotation verbose (AnnotationConv.mk (spy a) k logs doc, w)
    = (Ok tt,
       (AnnotationConv.mk (spy a) k (logs ++ combine (messages pairs) rs) doc,
        printed
          (set_agents w (x', snd (agents w) ++ combine windows (map Ok rs)))
          (echoed textwrap_fill verbose
             (formatted format_chat_message pairs) rs))).
Proof.
  intros Hk Hlogs Hnr windows.
  destruct (speak_each_total a Hnr windows (fst (agents w)))
    as (rs & x' & Hall & Hlen).
  exists rs, x'. split.
  - rewrite Hlen. subst windows. rewrite length_map, length_seq. reflexivity.
  - subst begin_annotation.
    apply begin_annotation_ok; try assumption.
    destruct (agents w) as [x log] eqn:Hw. cbn [fst snd].
    apply speak_each_spy. exact Hall.
Qed.

(** Whatever the annotator does, the histories the spy records during
    the loop are the first few of the deque's successive contents. *)
Lemma annotate_all_spied_histories verbose a pairs :
  forall d (self : AnnotationConv.t (X * SpyLog)) w,
    AnnotationConv.annotator self = spy a ->
    exists m, (m <= length pairs)%nat /\
      spied_histories
        (snd (snd (for_in (map pair_entry pairs) d
                     (annotate_entry verbose) (self, w))))
      = spied_histories w
        ++ take m (windows_from d (formatted format_chat_message pairs)).
Proof.
  induction pairs as [| [u m0] rest IH]; intros d self w Hself.
  - exists 0%nat. split; [lia |]. cbn. rewrite app_nil_r. reflexivity.
  - cbn [map]. rewrite for_in_cons.
    set (f := format_chat_message u m0).
    set (h := deque.to_list (deque.append d f)).
    destruct (agents w) as [x log] eqn:Hw.
    destruct (actor_speak a h x) as [[r | e] x1] eqn:Hr.
    + assert (Hspy : actor_speak (AnnotationConv.annotator self) h (agents w)
                     = (Ok r, (x1, log ++ [(h, Ok r)]))).
      { rewrite Hself, Hw. cbn. rewrite Hr. reflexivity. }
      subst annotate_entry.
      erewrite bind_ok
        by (apply (annotate_entry_ok format_chat_message textwrap_fill
                     verbose d u m0 self w); exact Hspy).
      edestruct (IH (deque.append d f)) as (m & Hm & Hhist);
        [| exists (S m); split; [simpl; lia |]; rewrite Hhist].
      * exact Hself.
      * unfold spied_histories. cbn. rewrite Hw. cbn.
        rewrite map_app, <- app_assoc. reflexivity.
    + assert (Hspy : actor_speak (AnnotationConv.annotator self) h (agents w)
                     = (Raise e, (x1, log ++ [(h, Raise e)]))).
      { rewrite Hself, Hw. cbn. rewrite Hr. reflexivity. }
      subst annotate_entry.
      erewrite bind_raise
        by (apply (annotate_entry_raise format_chat_message textwrap_fill
                     verbose d u m0 self w); exact Hspy).
      exists 1%nat. split; [simpl; lia |].
      unfold spied_histories. cbn. rewrite Hw. cbn.
      rewrite map_app. reflexivity.
Qed.

(** The same for the whole method. *)
Lemma begin_annotation_spied_histories verbose a k logs doc pairs w :
  0 <= k ->
  py_getitem doc "logs" = Ok (transcript pairs) ->
  exists m, (m <= length pairs)%nat /\
    spied_histories
      (snd (snd (begin_annotation verbose
                   (AnnotationConv.mk (spy a) k logs doc, w))))
    = spied_histories w
      ++ take m (map (window k (formatted format_chat_message pairs))
                     (seq 1 (length pairs))).
Proof.
  intros Hk Hlogs.
  destruct (annotate_all_spied_histories verbose a pairs (deque.mk k [])
              (AnnotationConv.mk (spy a) k logs doc) w eq_refl)
    as (m & Hm & Hhist).
  exists m. split; [exact Hm |].
  rewrite windows_from_empty in Hhist by assumption.
  unfold formatted at 2 in Hhist. rewrite length_map in Hhist.
  rewrite <- Hhist. subst begin_annotation annotate_entry.
  unfold AnnotationConv.begin_annotation.
  unfold bind at 1, get. cbn [fst AnnotationConv.history_ctx_len
    AnnotationConv.conv_data_dict].
  rewrite (deque_new_ok k Hk), Hlogs.
  unfold bind at 1, lift_result. unfold bind at 1. unfold bind at 1.
  cbn [transcript py_iter].
  unfold bind at 1, ret.
  destruct (for_in _ _ _ _) as [[d' | e] st']; reflexivity.
Qed.

End SpiedRuns.

(** ** The spy does not disturb the run *)

Section SpyTransparent.

Context {X : Type}.
Variable format_chat_message : pyval -> pyval -> string.
Variable textwrap_fill : string -> string.

Implicit Types (a : IActor X)
  (st : AnnotationConv.t (X * SpyLog) * World (X * SpyLog)).

Lemma annotate_entry_unspied verbose a d entry st :
  AnnotationConv.annotator (fst st) = spy a ->
  let run := AnnotationConv.annotate_entry format_chat_message textwrap_fill
               verbose d entry st in
  AnnotationConv.annotate_entry format_chat_message textwrap_fill
    verbose d entry (unspied a st)
  = (fst run, unspied a (snd run))
  /\ AnnotationConv.annotator (fst (snd run)) = spy a.
Proof.
  destruct st as [self w]. cbn [fst]. intros Hself. cbv zeta.
  unfold AnnotationConv.annotate_entry, AnnotationConv.annotator_speak,
    AnnotationConv.append_log, print, unspied, bind, lift_result, get,
    on_snd, on_agents, modify, ret.
  cbn -[deque.append unpack2].
  destruct (unpack2 entry) as [[username message] | e]; [| split; auto].
  cbn -[deque.append]. rewrite Hself. cbn -[deque.append].
  destruct (actor_speak a _ (fst (agents w))) as [[r | e] x'];
    [destruct verbose |]; split; auto.
Qed.

Lemma annotate_all_unspied verbose a entries : forall d st,
  AnnotationConv.annotator (fst st) = spy a ->
  let run := for_in entries d
               (AnnotationConv.annotate_entry format_chat_message
                  textwrap_fill verbose) st in
  for_in entries d
    (AnnotationConv.annotate_entry format_chat_message textwrap_fill verbose)
    (unspied a st)
  = (fst run, unspied a (snd run)).
Proof.
  induction entries as [| entry rest IH]; intros d st Hself; [reflexivity |].
  cbv zeta. rewrite !for_in_cons.
  destruct (annotate_entry_unspied verbose a d entry st Hself) as [Hstep Hkeep].
  destruct (AnnotationConv.annotate_entry _ _ verbose d entry st)
    as [[d' | e] st'] eqn:Hrun; cbn [fst snd] in Hstep, Hkeep.
  - rewrite (bind_ok _ _ _ _ _ Hstep), (bind_ok _ _ _ _ _ Hrun).
    apply IH. exact Hkeep.
  - rewrite (bind_raise _ _ _ _ _ Hstep), (bind_raise _ _ _ _ _ Hrun).
    reflexivity.
Qed.

(** A job run with a spied annotator goes exactly as the job run with the
    annotator itself: same outcome, same log, same world. *)
Lemma begin_annotation_unspied verbose a st r st' :
  AnnotationConv.annotator (fst st) = spy a ->
  AnnotationConv.begin_annotation format_chat_message textwrap_fill verbose st
  = (r, st') ->
  AnnotationConv.begin_annotation format_chat_message textwrap_fill
    verbose (unspied a st)
  = (r, unspied a st').
Proof.
  intros Hself Hrun.
  unfold AnnotationConv.begin_annotation in *.
  unfold bind at 1, get in Hrun. unfold bind at 1, get.
  change (AnnotationConv.history_ctx_len (fst (unspied a st)))
    with (AnnotationConv.history_ctx_len (fst st)).
  change (AnnotationConv.conv_data_dict (fst (unspied a st)))
    with (AnnotationConv.conv_data_dict (fst st)).
  unfold bind at 1, lift_result in Hrun. unfold bind at 1, lift_result.
  destruct (deque.new _) as [d | e]; [| injection Hrun as <- <-; reflexivity].
  unfold bind at 1 in Hrun. unfold bind at 1.
  destruct (py_getitem _ _) as [logs | e];
    [| injection Hrun as <- <-; reflexivity].
  unfold bind at 1 in Hrun. unfold bind at 1.
  destruct (py_iter logs) as [entries | e];
    [| injection Hrun as <- <-; reflexivity].
  unfold bind at 1 in Hrun. unfold bind at 1.
  rewrite (annotate_all_unspied verbose a entries d st Hself).
  destruct (for_in _ _ _ st) as [[d' | e] st1]; cbn [fst snd];
    injection Hrun as <- <-; reflexivity.
Qed.

End SpyTransparent.

(** ** Construction and export of an annotation job *)

Lemma json_image_dict (items : list (string * pyval)) :
  json_image (PDict items)
  = PDict (map (fun kv => (fst kv, json_image (snd kv))) items).
Proof.
  cbn. f_equal.
  induction items as [| [k v] items IH]; [reflexivity |].
  cbn. rewrite IH. reflexivity.
Qed.

(** A job is built with an empty annotation log and the document of the
    transcript file. *)
Lemma init_fresh {X : Type} (a : IActor X) (conv_logs_path : string)
    (history_ctx_len : option Z) (doc : pyval) (w : World X) :
  files w !! conv_logs_path = Some (Some doc) ->
  AnnotationConv.init a conv_logs_path history_ctx_len w
  = (Ok (AnnotationConv.mk a (default 4 history_ctx_len) [] doc), w).
Proof.
  intros Hfile. unfold AnnotationConv.init, bind, json_load_file.
  rewrite Hfile. reflexivity.
Qed.

Lemma assoc_json_image (key : string) (items : list (string * pyval)) :
  assoc key (map (fun kv => (fst kv, json_image (snd kv))) items)
  = json_image <$> assoc key items.
Proof.
  induction items as [| [k v] items IH]; [reflexivity |].
  cbn [map assoc fst snd]. destruct (String.eqb k key); [reflexivity | exact IH].
Qed.

(** In the file the entries of the log are arrays; they read back as the
    same pairs (a message that came out of [json.load] is its own image). *)
Lemma read_logs_json_image (export : pyval) (logs : list (pyval * string)) :
  py_getitem export "logs" = Ok (PList (map AnnotationConv.log_entry logs)) ->
  read_logs (json_image export)
  = Some (map (fun e => (json_image (fst e), snd e)) logs).
Proof.
  intros Hlogs. unfold read_logs.
  destruct export as [| | | | | | | items]; try discriminate Hlogs.
  rewrite json_image_dict. cbn [py_getitem] in Hlogs |- *.
  rewrite assoc_json_image.
  destruct (assoc "logs" items) as [v |]; [| discriminate Hlogs].
  injection Hlogs as ->. cbn [fmap option_fmap option_map json_image].
  induction logs as [| [m r] logs IH]; [reflexivity |].
  cbn. cbn in IH. rewrite IH. reflexivity.
Qed.

(** [to_json_file] leaves in the file the image of what [to_dict] returns. *)
Lemma to_json_file_writes_export {X : Type} (py_str : pyval -> string)
    (output_path : string) (st : AnnotationConv.t X * World X)
    (export : pyval) :
  AnnotationConv.to_dict py_str AnnotationConv.default_timestamp_format st
  = (Ok export, st) ->
  exists w',
    AnnotationConv.to_json_file py_str output_path st = (Ok tt, (fst st, w'))
    /\ files w' !! output_path = Some (Some (json_image export)).
Proof.
  destruct st as [self w].
  unfold AnnotationConv.to_json_file, AnnotationConv.to_dict, bind, get,
    lift_result, ret, on_snd, open_for_writing, json_dump_file, modify.
  cbn [fst snd clock set_files].
  destruct (py_getitem _ "id") as [conv_id | e]; [| discriminate].
  intros Hexport. injection Hexport as <-.
  eexists. split; [reflexivity |].
  cbn [files set_files]. apply lookup_insert_eq.
Qed.

(** ** AnnotationConv.begin_annotation *)

Section AnnotationClaims.

Context {X : Type}.
Variable format_chat_message : pyval -> pyval -> string.
Variable textwrap_fill : string -> string.

Let begin_annotation :=
  @AnnotationConv.begin_annotation format_chat_message textwrap_fill (X * SpyLog).

Implicit Types (a : IActor X) (w : World X) (pairs : list (pyval * pyval)).

(** C1. Whatever the annotator, the transcript and [history_ctx_len = k >= 0]:
    the history passed to the [(i+1)]-th call of [speak] (index [i] from 0)
    is the last [min k (i+1)] of the first [i+1] formatted transcript
    entries, oldest first, and so never holds more than [k] entries; if the
    annotator never raises, the run completes with one call per entry. *)
Theorem begin_annotation_window verbose a k logs doc pairs w :
  0 <= k ->
  py_getitem doc "logs" = Ok (transcript pairs) ->
  let run := begin_annotation verbose
               (AnnotationConv.mk (spy a) k logs doc, spied w) in
  let calls := spied_histories (snd (snd run)) in
  (forall (i : nat) (h : list string),
      calls !! i = Some h ->
      h = last_n (Nat.min (Z.to_nat k) (S i))
                 (take (S i) (formatted format_chat_message pairs))
      /\ Z.of_nat (length h) <= k)
  /\ ((forall h, never_raises (actor_speak a h)) ->
      fst run = Ok tt /\ length calls = length pairs).
Proof.
  intros Hk Hlogs run calls. split.
  - intros i h Hi.
    destruct (begin_annotation_spied_histories format_chat_message textwrap_fill
                verbose a k logs doc pairs (spied w) Hk Hlogs)
      as (m & Hm & Hhist).
    subst calls run begin_annotation. rewrite Hhist in Hi. cbn in Hi.
    apply lookup_take_Some in Hi as [Hi _].
    rewrite list_lookup_fmap in Hi.
    destruct (seq 1 (length pairs) !! i) as [j |] eqn:Hj; [| discriminate].
    apply lookup_seq in Hj as [-> _].
    assert (Hh : h = window k (formatted format_chat_message pairs) (S i))
      by (injection Hi as <-; reflexivity).
    split; [exact Hh |].
    pose proof (window_bounded k (formatted format_chat_message pairs) (S i)).
    rewrite Hh. lia.
  - intros Hnr.
    destruct (begin_annotation_spied format_chat_message textwrap_fill
                verbose a k logs doc pairs (spied w) Hk Hlogs Hnr)
      as (rs & x' & Hlen & Hrun).
    subst calls run begin_annotation. rewrite Hrun. split; [reflexivity |].
    unfold spied_histories. cbn.
    rewrite length_map, length_combine, !length_map, length_seq. lia.
Qed.

(** C2. For a transcript of [n] (speaker, message) pairs, a freshly
    built job whose annotator never raises completes, and its annotation
    log then has exactly [n] entries: the raw messages of the transcript in
    input order, each paired with the answer of the corresponding call. *)
Theorem begin_annotation_log verbose a k doc pairs w :
  0 <= k ->
  py_getitem doc "logs" = Ok (transcript pairs) ->
  (forall h, never_raises (actor_speak a h)) ->
  let run := begin_annotation verbose
               (AnnotationConv.mk (spy a) k [] doc, spied w) in
  let logs := AnnotationConv.annotation_logs (fst (snd run)) in
  fst run = Ok tt
  /\ length logs = length pairs
  /\ map fst logs = messages pairs
  /\ map (fun e => Ok (snd e)) logs = spied_answers (snd (snd run)).
Proof.
  intros Hk Hlogs Hnr run logs.
  destruct (begin_annotation_spied format_chat_message textwrap_fill
              verbose a k [] doc pairs (spied w) Hk Hlogs Hnr)
    as (rs & x' & Hlen & Hrun).
  subst logs run begin_annotation. rewrite Hrun. cbn.
  assert (Hmsgs : length (messages pairs) = length rs)
    by (unfold messages; rewrite length_map; lia).
  repeat split.
  - rewrite length_combine. lia.
  - apply map_fst_combine. lia.
  - unfold spied_answers. cbn.
    rewrite map_snd_combine by (rewrite !length_map, length_seq; lia).
    rewrite <- (map_snd_combine (messages pairs) rs) at 2 by lia.
    rewrite map_map. reflexivity.
Qed.

(** C3, as the code has it. Over a transcript of three messages with
    [history_ctx_len = 1], a fresh job whose annotator never raises ends
    with three log entries, and the history passed to the second call of
    [speak] holds the second formatted message and nothing else: the
    entry is pushed before the annotator is asked. *)
Theorem second_call_sees_second_message verbose a doc p1 p2 p3 w :
  py_getitem doc "logs" = Ok (transcript [p1; p2; p3]) ->
  (forall h, never_raises (actor_speak a h)) ->
  let run := begin_annotation verbose
               (AnnotationConv.mk (spy a) 1 [] doc, spied w) in
  length (AnnotationConv.annotation_logs (fst (snd run))) = 3%nat
  /\ spied_histories (snd (snd run)) !! 1%nat
     = Some [format_chat_message (fst p2) (snd p2)].
Proof.
  intros Hlogs Hnr run.
  destruct (begin_annotation_spied format_chat_message textwrap_fill
              verbose a 1 [] doc [p1; p2; p3] (spied w) ltac:(lia) Hlogs Hnr)
    as (rs & x' & Hlen & Hrun).
  subst run begin_annotation. rewrite Hrun.
  destruct rs as [| r1 [| r2 [| r3 [| r4 rs]]]]; try discriminate.
  split; reflexivity.
Qed.

(** C10. [begin_annotation] does not reset the annotation log: called
    twice on a fresh job over [n] messages (with an annotator that never
    raises), it leaves [2 * n] entries, the messages of the transcript
    twice over, and the second pass starts again from an empty history:
    the histories passed to [speak] are the windows of one pass, twice. *)
Theorem begin_annotation_twice verbose a k doc pairs w :
  0 <= k ->
  py_getitem doc "logs" = Ok (transcript pairs) ->
  (forall h, never_raises (actor_speak a h)) ->
  let run := bind (begin_annotation verbose)
                  (fun _ => begin_annotation verbose)
                  (AnnotationConv.mk (spy a) k [] doc, spied w) in
  let logs := AnnotationConv.annotation_logs (fst (snd run)) in
  let windows :=
    map (fun i => last_n (Nat.min (Z.to_nat k) i)
                         (take i (formatted format_chat_message pairs)))
        (seq 1 (length pairs)) in
  fst run = Ok tt
  /\ length logs = (2 * length pairs)%nat
  /\ map fst logs = messages pairs ++ messages pairs
  /\ spied_histories (snd (snd run)) = windows ++ windows.
Proof.
  intros Hk Hlogs Hnr run logs windows.
  destruct (begin_annotation_spied format_chat_message textwrap_fill
              verbose a k [] doc pairs (spied w) Hk Hlogs Hnr)
    as (rs1 & x1 & Hlen1 & Hrun1).
  subst logs run. erewrite bind_ok by exact Hrun1.
  match goal with
  | |- context [begin_annotation verbose (AnnotationConv.mk _ _ ?l _, ?w1)] =>
      destruct (begin_annotation_spied format_chat_message textwrap_fill
                  verbose a k l doc pairs w1 Hk Hlogs Hnr)
        as (rs2 & x2 & Hlen2 & Hrun2)
  end.
  subst begin_annotation. rewrite Hrun2. cbn.
  assert (Hm1 : length (messages pairs) = length rs1)
    by (unfold messages; rewrite length_map; lia).
  assert (Hm2 : length (messages pairs) = length rs2)
    by (unfold messages; rewrite length_map; lia).
  repeat split.
  - rewrite length_app, !length_combine. lia.
  - rewrite map_app, !map_fst_combine by lia. reflexivity.
  - unfold spied_histories. cbn.
    rewrite map_app, !map_fst_combine
      by (rewrite !length_map, length_seq; lia).
    reflexivity.
Qed.

Variable py_str : pyval -> string.

Lemma read_log_entries (logs : list (pyval * string)) :
  mapM entry_of (map AnnotationConv.log_entry logs) = Some logs.
Proof.
  induction logs as [| [m r] logs IH]; [reflexivity |].
  cbn. cbn in IH. rewrite IH. reflexivity.
Qed.

(** C8. After a completed run of a fresh job (transcript with an id,
    annotator that never raises), [to_dict] returns a document whose
    ["logs"] field is the annotation log, entry by entry and in order; the
    log is the sequence of (raw message, answer) pairs of the run; and
    reading the field back from the document gives that same sequence. *)
Theorem to_dict_logs_roundtrip verbose timestamp_format a k doc conv_id pairs w :
  0 <= k ->
  py_getitem doc "logs" = Ok (transcript pairs) ->
  py_getitem doc "id" = Ok conv_id ->
  (forall h, never_raises (actor_speak a h)) ->
  let run := bind (begin_annotation verbose)
                  (fun _ => AnnotationConv.to_dict py_str timestamp_format)
                  (AnnotationConv.mk (spy a) k [] doc, spied w) in
  let logs := AnnotationConv.annotation_logs (fst (snd run)) in
  exists export,
    fst run = Ok export
    /\ py_getitem export "logs" = Ok (PList (map AnnotationConv.log_entry logs))
    /\ read_logs export = Some logs
    /\ map fst logs = messages pairs
    /\ map (fun e => Ok (snd e)) logs = spied_answers (snd (snd run)).
Proof.
  intros Hk Hlogs Hid Hnr run logs.
  destruct (begin_annotation_spied format_chat_message textwrap_fill
              verbose a k [] doc pairs (spied w) Hk Hlogs Hnr)
    as (rs & x' & Hlen & Hrun).
  subst logs run. erewrite bind_ok by exact Hrun.
  unfold AnnotationConv.to_dict, bind, get, lift_result, ret.
  cbn [fst snd AnnotationConv.conv_data_dict]. rewrite Hid.
  eexists. split; [reflexivity |].
  cbn [fst snd AnnotationConv.annotation_logs app].
  assert (Hmsgs : length (messages pairs) = length rs)
    by (unfold messages; rewrite length_map; lia).
  repeat split.
  - unfold read_logs. cbn. apply read_log_entries.
  - apply map_fst_combine. lia.
  - unfold spied_answers. cbn.
    rewrite map_snd_combine by (rewrite !length_map, length_seq; lia).
    rewrite <- (map_snd_combine (messages pairs) rs) at 2 by lia.
    rewrite map_map. reflexivity.
Qed.

End AnnotationClaims.

(** The job of the examples: the demo annotator, spied on, over the
    three-message transcript. *)
Lemma demo_annotator_never_raises :
  forall h, never_raises (actor_speak (LlmActor_IActor demo_annotator) h).
Proof. intros h s. eexists _, _. reflexivity. Qed.

Lemma begin_annotation_window_witness :
  0 <= 2
  /\ py_getitem demo_doc "logs" = Ok (transcript demo_pairs)
  /\ forall (i : nat) (h : list string),
       spied_histories
         (snd (snd (AnnotationConv.begin_annotation demo_format (fun s => s) true
                      (AnnotationConv.mk (spy (LlmActor_IActor demo_annotator))
                         2 [] demo_doc, spied demo_world)))) !! i = Some h ->
       h = last_n (Nat.min (Z.to_nat 2) (S i))
                  (take (S i) (formatted demo_format demo_pairs))
       /\ Z.of_nat (length h) <= 2.
Proof.
  split; [lia |]. split; [reflexivity |].
  apply (begin_annotation_window demo_format (fun s => s) true
           (LlmActor_IActor demo_annotator) 2 [] demo_doc demo_pairs demo_world);
    [lia | reflexivity].
Defined.

Lemma begin_annotation_log_witness :
  map fst
    (AnnotationConv.annotation_logs
       (fst (snd (AnnotationConv.begin_annotation demo_format (fun s => s) true
                    (AnnotationConv.mk (spy (LlmActor_IActor demo_annotator))
                       2 [] demo_doc, spied demo_world)))))
  = messages demo_pairs.
Proof.
  apply (begin_annotation_log demo_format (fun s => s) true
           (LlmActor_IActor demo_annotator) 2 demo_doc demo_pairs demo_world);
    [lia | reflexivity | intros h s; eexists _, _; reflexivity].
Defined.

(** C3, as the specification words it, fails: with [history_ctx_len = 1]
    the second call does not see the first message. *)
Lemma second_call_does_not_see_first_message :
  let run := AnnotationConv.begin_annotation demo_format (fun s => s) true
               (AnnotationConv.mk (spy (LlmActor_IActor demo_annotator))
                  1 [] demo_doc, spied demo_world) in
  ~ (length (AnnotationConv.annotation_logs (fst (snd run))) = 3%nat
     /\ spied_histories (snd (snd run)) !! 1%nat
        = Some [demo_format (PStr "a") (PStr "x")]).
Proof. intros run [_ H]. vm_compute in H. discriminate H. Qed.

Example second_call_history :
  spied_histories
    (snd (snd (AnnotationConv.begin_annotation demo_format (fun s => s) true
                 (AnnotationConv.mk (spy (LlmActor_IActor demo_annotator))
                    1 [] demo_doc, spied demo_world))))
  = [["a: x"]; ["b: y"]; ["c: z"]].
Proof. vm_compute. reflexivity. Qed.

Lemma second_call_sees_second_message_witness :
  spied_histories
    (snd (snd (AnnotationConv.begin_annotation demo_format (fun s => s) true
                 (AnnotationConv.mk (spy (LlmActor_IActor demo_annotator))
                    1 [] demo_doc, spied demo_world)))) !! 1%nat
  = Some [demo_format (PStr "b") (PStr "y")].
Proof.
  apply (second_call_sees_second_message demo_format (fun s => s) true
           (LlmActor_IActor demo_annotator) demo_doc
           (PStr "a", PStr "x") (PStr "b", PStr "y") (PStr "c", PStr "z")
           demo_world);
    [reflexivity | intros h s; eexists _, _; reflexivity].
Defined.

Lemma begin_annotation_twice_witness :
  length
    (AnnotationConv.annotation_logs
       (fst (snd (bind (AnnotationConv.begin_annotation demo_format (fun s => s) true)
                       (fun _ => AnnotationConv.begin_annotation demo_format
                                   (fun s => s) true)
                       (AnnotationConv.mk (spy (LlmActor_IActor demo_annotator))
                          2 [] demo_doc, spied demo_world)))))
  = (2 * length demo_pairs)%nat.
Proof.
  apply (begin_annotation_twice demo_format (fun s => s) true
           (LlmActor_IActor demo_annotator) 2 demo_doc demo_pairs demo_world);
    [lia | reflexivity | intros h s; eexists _, _; reflexivity].
Defined.

(** The export of the demo job, with a constant in place of the built-in
    [str]. *)
Lemma to_dict_logs_roundtrip_witness :
  exists export,
    fst (bind (AnnotationConv.begin_annotation demo_format (fun s => s) true)
              (fun _ => AnnotationConv.to_dict (fun _ => "7")
                          AnnotationConv.default_timestamp_format)
              (AnnotationConv.mk (spy (LlmActor_IActor demo_annotator))
                 2 [] demo_doc, spied demo_world))
    = Ok export
    /\ read_logs export
       = Some [ (PStr "x", "neutral"); (PStr "y", "neutral");
                (PStr "z", "neutral") ].
Proof.
  destruct (to_dict_logs_roundtrip demo_format (fun s => s) (fun _ => "7") true
              AnnotationConv.default_timestamp_format
              (LlmActor_IActor demo_annotator) 2 demo_doc (PInt 7) demo_pairs
              demo_world)
    as (export & Hrun & _ & Hread & _);
    [lia | reflexivity | reflexivity
     | intros h s; eexists _, _; reflexivity |].
  exists export. split; [exact Hrun | exact Hread].
Defined.

(** ** Actors *)

(** The receiver of [speak] comes back as it went in. *)
Lemma speak_state (self : LlmActor.t) (history : list string) (log : Agents) :
  fst (snd (LlmActor.speak history (self, log))) = self.
Proof.
  unfold LlmActor.speak, bind, get, on_snd, model_prompt, ret. cbn.
  destruct (generate _ _ _ _); reflexivity.
Qed.

(** What a call of [speak] does, in one equation. *)
Lemma speak_run (self : LlmActor.t) (history : list string) (log : Agents) :
  LlmActor.speak history (self, log)
  = (generate (LlmActor.model self) log
       [LlmActor._system_prompt self; LlmActor._message_prompt self history]
       ["User"],
     (self,
      log ++ [mkCall (model_id (LlmActor.model self))
                [LlmActor._system_prompt self;
                 LlmActor._message_prompt self history]
                ["User"]])).
Proof.
  unfold LlmActor.speak, bind, get, on_snd, model_prompt, ret. cbn.
  destruct (generate _ _ _ _); reflexivity.
Qed.

(** An actor whose model always answers never raises. *)
Lemma llm_actor_never_raises (self : LlmActor.t) :
  (forall log messages stop_list,
      exists text, generate (LlmActor.model self) log messages stop_list
                   = Ok text) ->
  forall h, never_raises (actor_speak (LlmActor_IActor self) h).
Proof.
  intros Hgen h log. unfold LlmActor_IActor. cbn [actor_speak].
  rewrite speak_run.
  destruct (Hgen log [LlmActor._system_prompt self;
                      LlmActor._message_prompt self h] ["User"])
    as [text ->].
  eexists _, _. reflexivity.
Qed.

(** C6. [speak] issues exactly one prompt: the log of the agents grows
    by one call, to the model the actor is bound to, with the two-part
    prompt (system prompt, then the message prompt of the actor's class)
    and the stop list [["User"]]; what [speak] returns is what the model
    answered (its text, or the failure it raised); the actor is unchanged. *)
Theorem speak_prompts_model_once (self : LlmActor.t) (history : list string)
    (log : Agents) :
  let prompt :=
    [LlmActor._system_prompt self; LlmActor._message_prompt self history] in
  let run := LlmActor.speak history (self, log) in
  fst run = generate (LlmActor.model self) log prompt ["User"]
  /\ fst (snd run) = self
  /\ snd (snd run)
     = log ++ [mkCall (model_id (LlmActor.model self)) prompt ["User"]]
  /\ length (snd (snd run)) = S (length log).
Proof.
  cbv zeta. rewrite speak_run. cbn [fst snd].
  repeat split. rewrite length_app. simpl. lia.
Qed.

(** C7. Two actors that differ in their class only build the same
    system prompt (and so have the same description and name); their
    message prompts, both of role "user", differ: the user's is the
    newline-joined history, a newline, and the cue "User <name> posted:";
    the annotator's is "Conversation so far:", a blank line, the
    newline-joined history, a newline, and the cue "Output:".  When they
    speak, the calls they issue agree on the model, on the stop list and
    on the first part of the prompt, and differ in the second part only. *)
Theorem actor_variants_message_prompt (model : LlamaModel) (name : string)
    (attributes : list string) (context instructions : string)
    (history : list string) :
  let user :=
    LlmActor.mk LlmActor.LLMUser model name attributes context instructions in
  let annotator :=
    LlmActor.mk LlmActor.LLMAnnotator model name attributes context instructions in
  LlmActor._message_prompt user history
  = mkChat "user"
      (join newline history +:+ newline +:+ "User " +:+ name +:+ " posted:")
  /\ LlmActor._message_prompt annotator history
     = mkChat "user"
         ("Conversation so far:" +:+ newline +:+ newline
          +:+ join newline history +:+ newline +:+ "Output:")
  /\ LlmActor._system_prompt user = LlmActor._system_prompt annotator
  /\ LlmActor.describe user = LlmActor.describe annotator
  /\ LlmActor.get_name user = LlmActor.get_name annotator
  /\ forall log : Agents,
       exists system_prompt,
         snd (snd (LlmActor.speak history (user, log)))
         = log ++ [mkCall (model_id model)
                     [system_prompt; LlmActor._message_prompt user history]
                     ["User"]]
         /\ snd (snd (LlmActor.speak history (annotator, log)))
            = log ++ [mkCall (model_id model)
                        [system_prompt;
                         LlmActor._message_prompt annotator history]
                        ["User"]].
Proof.
  cbv zeta. repeat split.
  intros log. eexists. rewrite !speak_run. cbn [fst snd LlmActor.model].
  split; reflexivity.
Qed.

Example user_message_prompt_text :
  content (LlmActor._message_prompt
             (LlmActor.mk LlmActor.LLMUser demo_model "bob" [] "" "")
             ["alice: hi"; "bob: hello"])
  = "alice: hi" +:+ newline +:+ "bob: hello" +:+ newline +:+ "User bob posted:".
Proof. reflexivity. Qed.

Example annotator_message_prompt_text :
  content (LlmActor._message_prompt demo_annotator ["alice: hi"; "bob: hello"])
  = "Conversation so far:" +:+ newline +:+ newline
    +:+ "alice: hi" +:+ newline +:+ "bob: hello" +:+ newline +:+ "Output:".
Proof. reflexivity. Qed.

Example system_prompt_text :
  content (LlmActor._system_prompt
             (LlmActor.mk LlmActor.LLMUser demo_model "bob" ["calm"; "curious"]
                "a forum" "be brief"))
  = "You are bob calm, curious. Context: a forum. Your instructions: be brief.".
Proof. reflexivity. Qed.

(** ** LLMConvData: construction *)

Lemma post_init_spec (self : LLMConvData.t) :
  LLMConvData.__post_init__ self
  = if decide (length (LLMConvData.user_names self)
               = length (LLMConvData.user_attributes self))
    then Ok tt
    else Raise (AssertionError
           "Number of actor names and actor attribute lists must be the same").
Proof.
  unfold LLMConvData.__post_init__.
  destruct (Nat.eqb_spec (length (LLMConvData.user_names self))
              (length (LLMConvData.user_attributes self)));
    destruct (decide _); try reflexivity; contradiction.
Qed.

Lemma init_ok (context : string) (user_names : list string)
    (user_attributes : list (list string))
    (user_instructions turn_manager_type : string)
    (turn_manager_config : option (gmap string LLMConvData.pynum))
    (conv_len history_ctx_len : option Z)
    (moderator_name : option string) (moderator_attributes : option (list string))
    (moderator_instructions : option string) :
  length user_names = length user_attributes ->
  LLMConvData.init context user_names user_attributes user_instructions
    turn_manager_type turn_manager_config conv_len history_ctx_len
    moderator_name moderator_attributes moderator_instructions
  = Ok (LLMConvData.mk context user_names user_attributes
          user_instructions turn_manager_type
          (default ∅ turn_manager_config) (default 4 conv_len)
          (default 4 history_ctx_len)
          moderator_name moderator_attributes moderator_instructions).
Proof.
  intros Hlen. unfold LLMConvData.init. rewrite post_init_spec. cbn.
  destruct (decide _); [reflexivity | contradiction].
Qed.

Lemma init_raise (context : string) (user_names : list string)
    (user_attributes : list (list string))
    (user_instructions turn_manager_type : string)
    (turn_manager_config : option (gmap string LLMConvData.pynum))
    (conv_len history_ctx_len : option Z)
    (moderator_name : option string) (moderator_attributes : option (list string))
    (moderator_instructions : option string) :
  length user_names <> length user_attributes ->
  LLMConvData.init context user_names user_attributes user_instructions
    turn_manager_type turn_manager_config conv_len history_ctx_len
    moderator_name moderator_attributes moderator_instructions
  = Raise (AssertionError
      "Number of actor names and actor attribute lists must be the same").
Proof.
  intros Hlen. unfold LLMConvData.init. rewrite post_init_spec. cbn.
  destruct (decide _); [contradiction | reflexivity].
Qed.

(** C4. Construction succeeds when [user_names] and [user_attributes]
    have the same length, and then yields the record of its arguments
    (defaults filled in); otherwise it raises the assertion error of
    [__post_init__], so that no configuration exists for a turn to run on. *)
Theorem init_checks_lengths (context : string) (user_names : list string)
    (user_attributes : list (list string))
    (user_instructions turn_manager_type : string)
    (turn_manager_config : option (gmap string LLMConvData.pynum))
    (conv_len history_ctx_len : option Z)
    (moderator_name : option string) (moderator_attributes : option (list string))
    (moderator_instructions : option string) :
  LLMConvData.init context user_names user_attributes user_instructions
    turn_manager_type turn_manager_config conv_len history_ctx_len
    moderator_name moderator_attributes moderator_instructions
  = if decide (length user_names = length user_attributes)
    then Ok (LLMConvData.mk context user_names user_attributes
               user_instructions turn_manager_type
               (default ∅ turn_manager_config) (default 4 conv_len)
               (default 4 history_ctx_len)
               moderator_name moderator_attributes moderator_instructions)
    else Raise (AssertionError
           "Number of actor names and actor attribute lists must be the same").
Proof.
  destruct (decide _) as [Heq | Hne]; [apply init_ok | apply init_raise];
    assumption.
Qed.

(** The scenario of the specification. *)
Example init_length_mismatch :
  LLMConvData.init "ctx" ["a"; "b"] [["x"]] "instr" "round_robin"
    None None None None None None
  = Raise (AssertionError
      "Number of actor names and actor attribute lists must be the same").
Proof. reflexivity. Qed.

(** ** LLMConvGenerator: the moderator *)

Section ModeratorClaims.

Variable TurnManager : Type.
Variable turn_manager_factory : string -> list string -> result TurnManager.
Variable Conversation : Type.
Variable Conversation_init :
  TurnManager -> list LlmActor.t -> option LlmActor.t -> Z -> Z ->
  result Conversation.

Let produce_conversation :=
  LLMConvGenerator.produce_conversation TurnManager Conversation
    Conversation_init.

Lemma build_users_clear_moderator user_model moderator_model d tm indices :
  forall user_list,
    LLMConvGenerator.build_users TurnManager
      (LLMConvGenerator.mk TurnManager user_model moderator_model d tm)
      indices user_list
    = LLMConvGenerator.build_users TurnManager
        (LLMConvGenerator.mk TurnManager user_model moderator_model
           (clear_moderator d) tm)
        indices user_list.
Proof.
  induction indices as [| i rest IH]; intros user_list; [reflexivity |].
  cbn. destruct (_ !! i); [| reflexivity].
  destruct (_ !! i); [| reflexivity].
  apply IH.
Qed.

(** When the three fields and the model are there, the moderator is built
    from them. *)
Lemma produce_conversation_moderator user_model model d tm name attributes
    instructions :
  LLMConvData.moderator_name d = Some name ->
  LLMConvData.moderator_attributes d = Some attributes ->
  LLMConvData.moderator_instructions d = Some instructions ->
  produce_conversation
    (LLMConvGenerator.mk TurnManager user_model (Some model) d tm)
  = and_then
      (LLMConvGenerator.build_users TurnManager
         (LLMConvGenerator.mk TurnManager user_model (Some model) d tm)
         (seq 0 (length (LLMConvData.user_names d))) [])
      (fun user_list =>
         Conversation_init tm user_list
           (Some (LlmActor.mk LlmActor.LLMUser model name attributes
                    (LLMConvData.context d) instructions))
           (LLMConvData.history_ctx_len d) (LLMConvData.conv_len d)).
Proof.
  intros Hn Ha Hi. subst produce_conversation.
  unfold LLMConvGenerator.produce_conversation. cbn. rewrite Hn, Ha, Hi.
  reflexivity.
Qed.

(** C5, as the code has it. Moderator fields that are only partly given
    raise nothing: construction fails or succeeds exactly as it does with
    no moderator field at all, and [produce_conversation] then does what
    it does for the configuration with the three fields absent (in
    particular it builds no moderator). *)
Theorem partial_moderator_treated_as_absent (context : string)
    (user_names : list string) (user_attributes : list (list string))
    (user_instructions turn_manager_type : string)
    (turn_manager_config : option (gmap string LLMConvData.pynum))
    (conv_len history_ctx_len : option Z)
    (moderator_name : option string) (moderator_attributes : option (list string))
    (moderator_instructions : option string)
    (user_model : LlamaModel) (moderator_model : option LlamaModel)
    (tm : TurnManager) :
  ~ (moderator_name <> None /\ moderator_attributes <> None
     /\ moderator_instructions <> None) ->
  (forall e,
      LLMConvData.init context user_names user_attributes user_instructions
        turn_manager_type turn_manager_config conv_len history_ctx_len
        moderator_name moderator_attributes moderator_instructions = Raise e
      <-> LLMConvData.init context user_names user_attributes user_instructions
            turn_manager_type turn_manager_config conv_len history_ctx_len
            None None None = Raise e)
  /\ (forall d,
        LLMConvData.init context user_names user_attributes user_instructions
          turn_manager_type turn_manager_config conv_len history_ctx_len
          moderator_name moderator_attributes moderator_instructions = Ok d ->
        produce_conversation
          (LLMConvGenerator.mk TurnManager user_model moderator_model d tm)
        = produce_conversation
            (LLMConvGenerator.mk TurnManager user_model moderator_model
               (clear_moderator d) tm)).
Proof.
  intros Hpartial. split.
  - intros e.
    destruct (decide (length user_names = length user_attributes))
      as [Heq | Hne].
    + rewrite !init_ok by exact Heq. split; discriminate.
    + rewrite !init_raise by exact Hne. reflexivity.
  - intros d Hd.
    destruct (decide (length user_names = length user_attributes))
      as [Heq | Hne]; [| rewrite init_raise in Hd by exact Hne; discriminate].
    rewrite init_ok in Hd by exact Heq. injection Hd as <-.
    subst produce_conversation. unfold LLMConvGenerator.produce_conversation.
    cbn [LLMConvGenerator.data LLMConvGenerator.moderator_model
         LLMConvGenerator.next_turn_manager].
    rewrite build_users_clear_moderator.
    cbn [clear_moderator LLMConvData.moderator_name
         LLMConvData.moderator_attributes LLMConvData.moderator_instructions
         LLMConvData.user_names LLMConvData.context
         LLMConvData.history_ctx_len LLMConvData.conv_len].
    destruct moderator_name, moderator_model, moderator_attributes,
      moderator_instructions; try reflexivity.
    exfalso. apply Hpartial. repeat split; discriminate.
Qed.

End ModeratorClaims.

(** C5, as the specification words it, fails: a configuration with only
    the moderator's name is built, a generator takes it, and a
    conversation (without a moderator) is produced from it. *)
Lemma partial_moderator_config_is_accepted :
  LLMConvData.init "a forum thread" ["alice"; "bob"]
    [["calm"]; ["curious"; "blunt"]] "be brief" "round_robin"
    None None None (Some "mod") None None
  = Ok demo_partial_config
  /\ ~ moderator_all_or_none demo_partial_config
  /\ exists g,
       LLMConvGenerator.init (list string) demo_factory demo_partial_config
         (Some demo_model) (Some demo_model) = Ok g
       /\ exists users,
            LLMConvGenerator.produce_conversation (list string)
              demo_Conversation demo_Conversation_init g
            = Ok (["alice"; "bob"], users, None, 4, 4).
Proof.
  split; [reflexivity |]. split.
  - intros [(_ & Ha & _) | (Hn & _)]; [apply Ha; reflexivity | discriminate Hn].
  - eexists. split; [reflexivity |]. eexists. reflexivity.
Qed.

Lemma partial_moderator_treated_as_absent_witness :
  LLMConvGenerator.produce_conversation (list string) demo_Conversation
    demo_Conversation_init
    (LLMConvGenerator.mk (list string) demo_model (Some demo_model)
       demo_partial_config ["alice"; "bob"])
  = LLMConvGenerator.produce_conversation (list string) demo_Conversation
      demo_Conversation_init
      (LLMConvGenerator.mk (list string) demo_model (Some demo_model)
         (clear_moderator demo_partial_config) ["alice"; "bob"]).
Proof.
  apply (partial_moderator_treated_as_absent (list string) demo_Conversation
           demo_Conversation_init "a forum thread" ["alice"; "bob"]
           [["calm"]; ["curious"; "blunt"]] "be brief" "round_robin"
           None None None (Some "mod") None None
           demo_model (Some demo_model) ["alice"; "bob"]).
  - intros (_ & Ha & _). apply Ha. reflexivity.
  - reflexivity.
Defined.

(** ** LLMConvData: to a file and back *)










(** [asdict] of the typed record is [asdict] of the object. *)
Lemma asdict_to_raw (self : LLMConvData.t) :
  LLMConvData.Raw.asdict (LLMConvData.to_raw self) = LLMConvData.asdict self.
Proof. reflexivity. Qed.






(** A number that is not a NaN is equal to itself. *)
Lemma num_eqb_refl (n : LLMConvData.pynum) :
  LLMConvData.is_nan n = false -> LLMConvData.num_eqb n n = true.
Proof.
  destruct n as [z | f]; cbn [LLMConvData.num_eqb].
  - intros _. apply Z.eqb_refl.
  - destruct f as [s | s | | s m e]; cbn; try discriminate; intros _.
    + reflexivity.
    + destruct s; reflexivity.
    + unfold SpecFloat.SFeqb, SpecFloat.SFcompare.
      destruct s; rewrite Z.compare_refl, Pos.compare_cont_refl; reflexivity.
Qed.

Lemma config_eqb_refl (m : gmap string LLMConvData.pynum) :
  LLMConvData.nan_free m = true -> LLMConvData.config_eqb m m = true.
Proof.
  unfold LLMConvData.nan_free, LLMConvData.config_eqb. intros Hfree.
  rewrite Nat.eqb_refl. cbn [andb].
  apply forallb_forall. intros [k v] Hin.
  rewrite forallb_forall in Hfree. specialize (Hfree (k, v) Hin).
  apply list_elem_of_In, elem_of_map_to_list in Hin.
  cbn [fst snd] in *. rewrite Hin. apply num_eqb_refl.
  destruct (LLMConvData.is_nan v); [discriminate | reflexivity].
Qed.

(** An instance without a NaN compares equal to a copy of itself. *)
Lemma eqb_refl (d : LLMConvData.t) :
  LLMConvData.nan_free (LLMConvData.turn_manager_config d) = true ->
  LLMConvData.eqb d d = true.
Proof.
  intros Hfree. unfold LLMConvData.eqb.
  rewrite !String.eqb_refl, !Z.eqb_refl, (config_eqb_refl _ Hfree),
    !bool_decide_eq_true_2 by reflexivity.
  reflexivity.
Qed.





(** A document with a key the dataclass does not know is read all the
    same, while the constructor itself refuses the key; and a value that
    is not of the annotated type is stored as it is. *)
Example from_json_file_ignores_unknown_key :
  let doc := PDict [ ("context", PStr "c"); ("comment", PStr "draft");
                     ("user_names", PList [PStr "a"]);
                     ("user_attributes", PList [PList [PStr "x"]]);
                     ("user_instructions", PStr "i");
                     ("turn_manager_type", PStr "round_robin");
                     ("conv_len", PStr "4") ] in
  let w := mkWorld (<["in.json" := Some doc]> ∅) [] (fun _ => "") tt in
  fst (LLMConvData.from_json_file "in.json" w)
  = Ok (LLMConvData.Raw.mk (PStr "c") (PList [PStr "a"])
          (PList [PList [PStr "x"]]) (PStr "i") (PStr "round_robin")
          (PDict []) (PStr "4") (PInt 4) PNone PNone PNone)
  /\ LLMConvData.Raw.init_kwargs
       [ ("context", PStr "c"); ("comment", PStr "draft") ]
     = Raise (TypeError "got an unexpected keyword argument").
Proof.
  split; [| reflexivity].
  unfold LLMConvData.from_json_file, json_load_file, bind, lift_result.
  cbn [files]. rewrite lookup_insert_eq. reflexivity.
Qed.

(** * Further properties of the code *)

(** ** Loops and deques, continued *)

Lemma for_in_app {S A B} (xs ys : list A) (body : B -> A -> M S B) :
  forall (acc : B) (s : S),
    for_in (xs ++ ys) acc body s
    = bind (for_in xs acc body) (fun acc' => for_in ys acc' body) s.
Proof.
  induction xs as [| x xs IH]; intros acc s; [reflexivity |].
  cbn [app]. rewrite !for_in_cons. unfold bind.
  destruct (body acc x s) as [[acc' | e] s']; [| reflexivity].
  rewrite IH. reflexivity.
Qed.

(** After taking the entries [fs], a deque that held the last [k] items
    of [pre] holds the last [k] items of [pre ++ fs]. *)
Lemma deque_fold_last_n (fs pre : list string) : forall d : deque.t string,
  0 <= deque.maxlen d ->
  deque.items d = last_n (Z.to_nat (deque.maxlen d)) pre ->
  deque.maxlen (fold_left deque.append fs d) = deque.maxlen d
  /\ deque.items (fold_left deque.append fs d)
     = last_n (Z.to_nat (deque.maxlen d)) (pre ++ fs).
Proof.
  revert pre. induction fs as [| f fs IH]; intros pre d Hk Hitems.
  - cbn. rewrite app_nil_r. auto.
  - cbn [fold_left].
    destruct (IH (pre ++ [f]) (deque.append d f)) as [Hmax Hit].
    + rewrite deque_append_maxlen. exact Hk.
    + rewrite deque_append_maxlen. apply deque_append_last_n; assumption.
    + rewrite deque_append_maxlen in Hmax, Hit. split; [exact Hmax |].
      rewrite Hit, <- app_assoc. reflexivity.
Qed.

Lemma window_app (k : Z) (l1 l2 : list string) (i : nat) :
  (i <= length l1)%nat -> window k (l1 ++ l2) i = window k l1 i.
Proof. intros Hi. unfold window. rewrite take_app_le by exact Hi. reflexivity. Qed.

(** The contents of a deque that took [pre] and then [f], as a window. *)
Lemma window_after_prefix (k : Z) (pre : list string) (f : string)
    (rest : list string) :
  0 <= k ->
  deque.to_list (deque.append (fold_left deque.append pre (deque.mk k [])) f)
  = window k (pre ++ f :: rest) (S (length pre)).
Proof.
  intros Hk.
  destruct (deque_fold_last_n pre [] (deque.mk k []) Hk eq_refl)
    as [Hmax Hitems].
  cbn [deque.maxlen app] in Hmax, Hitems.
  unfold deque.to_list.
  rewrite (deque_append_last_n _ f pre); rewrite Hmax; try assumption.
  unfold window.
  assert (Htake : take (S (length pre)) (pre ++ f :: rest) = pre ++ [f]).
  { replace (pre ++ f :: rest) with ((pre ++ [f]) ++ rest)
      by (rewrite <- app_assoc; reflexivity).
    replace (S (length pre)) with (length (pre ++ [f]))
      by (rewrite length_app; simpl; lia).
    apply take_app_length. }
  rewrite Htake.
  replace (S (length pre)) with (length (pre ++ [f]))
    by (rewrite length_app; simpl; lia).
  rewrite last_n_min. reflexivity.
Qed.

Lemma window_zero (formatted : list string) (i : nat) : window 0 formatted i = [].
Proof.
  unfold window, last_n. change (Z.to_nat 0) with 0%nat. cbn [Nat.min].
  rewrite Nat.sub_0_r. apply drop_all.
Qed.

Lemma echoed_quiet (fill : string -> string) (fs rs : list string) :
  echoed fill false fs rs = [].
Proof.
  revert rs. induction fs as [| f fs IH]; intros [| r rs]; cbn; auto.
Qed.

Lemma echoed_length (fill : string -> string) (fs rs : list string) :
  length fs = length rs ->
  length (echoed fill true fs rs) = (2 * length fs)%nat.
Proof.
  revert rs. induction fs as [| f fs IH]; intros [| r rs] Hlen;
    simpl in *; try discriminate; [reflexivity |].
  rewrite IH by lia. lia.
Qed.

(** ** Runs that stop early, and what every run leaves alone *)

Section AnnotationRuns.

Context {X : Type}.
Variable format_chat_message : pyval -> pyval -> string.
Variable textwrap_fill : string -> string.

Let annotate_entry :=
  @AnnotationConv.annotate_entry format_chat_message textwrap_fill X.
Let begin_annotation :=
  @AnnotationConv.begin_annotation format_chat_message textwrap_fill X.

Implicit Types (a : IActor X) (w : World X) (pairs : list (pyval * pyval))
  (st : AnnotationConv.t X * World X).

(** The method, once the deque is built and the entries are drawn. *)
Lemma begin_annotation_loop verbose a k logs doc logs_value entries w :
  0 <= k ->
  py_getitem doc "logs" = Ok logs_value ->
  py_iter logs_value = Ok entries ->
  begin_annotation verbose (AnnotationConv.mk a k logs doc, w)
  = bind (for_in entries (deque.mk k []) (annotate_entry verbose))
         (fun _ => ret tt) (AnnotationConv.mk a k logs doc, w).
Proof.
  intros Hk Hlogs Hiter. subst begin_annotation annotate_entry.
  unfold AnnotationConv.begin_annotation.
  unfold bind at 1, get. cbn [fst AnnotationConv.history_ctx_len
    AnnotationConv.conv_data_dict].
  rewrite (deque_new_ok k Hk), Hlogs.
  unfold bind at 1, lift_result. unfold bind at 1. rewrite Hiter.
  unfold bind at 1. reflexivity.
Qed.

(** X1. An entry of the transcript that does not unpack into two values
    stops the run with the error of the unpacking; the entries before it
    have been annotated, and their annotations stay in the log. *)
Theorem begin_annotation_bad_entry verbose a k logs doc pairs bad rest w e :
  0 <= k ->
  py_getitem doc "logs" = Ok (PList (map pair_entry pairs ++ bad :: rest)) ->
  unpack2 bad = Raise e ->
  (forall h, never_raises (actor_speak a h)) ->
  exists rs x',
    length rs = length pairs
    /\ begin_annotation verbose (AnnotationConv.mk a k logs doc, w)
       = (Raise e,
          (AnnotationConv.mk a k (logs ++ combine (messages pairs) rs) doc,
           printed (set_agents w x')
             (echoed textwrap_fill verbose
                (formatted format_chat_message pairs) rs))).
Proof.
  intros Hk Hlogs Hbad Hnr.
  destruct (speak_each_total a Hnr
              (windows_from (deque.mk k [])
                 (formatted format_chat_message pairs)) (agents w))
    as (rs & x' & Hall & Hlen).
  exists rs, x'. split.
  - rewrite Hlen, windows_from_length. unfold formatted. apply length_map.
  - rewrite (begin_annotation_loop verbose a k logs doc _ _ w Hk Hlogs eq_refl).
    unfold bind at 1. rewrite for_in_app. subst annotate_entry.
    erewrite bind_ok
      by (apply (annotate_all_ok format_chat_message textwrap_fill);
          exact Hall).
    rewrite for_in_cons. unfold bind at 1.
    unfold AnnotationConv.annotate_entry at 1. unfold bind at 1, lift_result.
    rewrite Hbad. reflexivity.
Qed.

(** X2. A failure of the annotator stops the run with that failure; the
    entries annotated before it stay in the log, and nothing is logged or
    printed for the entry on which the annotator failed. *)
Theorem begin_annotation_annotator_failure verbose a k logs doc pre p rest w
    rs x1 e x2 :
  0 <= k ->
  py_getitem doc "logs" = Ok (transcript (pre ++ p :: rest)) ->
  speak_each a
    (map (window k (formatted format_chat_message (pre ++ p :: rest)))
         (seq 1 (length pre))) (agents w) = (Ok rs, x1) ->
  actor_speak a
    (window k (formatted format_chat_message (pre ++ p :: rest))
       (S (length pre))) x1 = (Raise e, x2) ->
  begin_annotation verbose (AnnotationConv.mk a k logs doc, w)
  = (Raise e,
     (AnnotationConv.mk a k (logs ++ combine (messages pre) rs) doc,
      printed (set_agents w x2)
        (echoed textwrap_fill verbose (formatted format_chat_message pre) rs))).
Proof.
  intros Hk Hlogs Hpre Hfail.
  set (fmts := formatted format_chat_message (pre ++ p :: rest)) in *.
  assert (Hfmts : fmts = formatted format_chat_message pre
                         ++ format_chat_message (fst p) (snd p)
                            :: formatted format_chat_message rest).
  { subst fmts. unfold formatted. rewrite map_app. reflexivity. }
  assert (Hlenpre : length (formatted format_chat_message pre) = length pre)
    by (unfold formatted; apply length_map).
  rewrite (begin_annotation_loop verbose a k logs doc _ _ w Hk Hlogs eq_refl).
  unfold bind at 1. unfold transcript.
  rewrite map_app. cbn [map]. rewrite for_in_app. subst annotate_entry.
  erewrite bind_ok.
  2:{ apply (annotate_all_ok format_chat_message textwrap_fill).
      cbn [AnnotationConv.annotator].
      rewrite windows_from_empty by exact Hk. rewrite Hlenpre.
      rewrite <- Hpre. f_equal. apply map_ext_in. intros i Hi.
      apply in_seq in Hi. rewrite Hfmts. symmetry. apply window_app. lia. }
  rewrite for_in_cons.
  destruct p as [u m].
  erewrite bind_raise.
  2:{ apply (annotate_entry_raise format_chat_message textwrap_fill).
      cbn [AnnotationConv.annotator agents set_agents printed with_logs].
      rewrite <- Hfail. f_equal.
      rewrite Hfmts, <- Hlenpre. apply window_after_prefix. exact Hk. }
  reflexivity.
Qed.

End AnnotationRuns.

Section AnnotationFrame.

Context {X : Type}.
Variable format_chat_message : pyval -> pyval -> string.
Variable textwrap_fill : string -> string.

Implicit Types (a : IActor X) (w : World X) (pairs : list (pyval * pyval))
  (st : AnnotationConv.t X * World X).

Lemma job_extends_refl st : job_extends st st.
Proof.
  unfold job_extends. repeat split; exists []; rewrite app_nil_r; reflexivity.
Qed.

Lemma job_extends_trans st1 st2 st3 :
  job_extends st1 st2 -> job_extends st2 st3 -> job_extends st1 st3.
Proof.
  intros (Ha & Hk & Hd & Hf & Hc & [l1 Hl1] & [o1 Ho1])
         (Ha' & Hk' & Hd' & Hf' & Hc' & [l2 Hl2] & [o2 Ho2]).
  unfold job_extends. repeat split; try congruence.
  - exists (l1 ++ l2). rewrite Hl2, Hl1, app_assoc. reflexivity.
  - exists (o1 ++ o2). rewrite Ho2, Ho1, app_assoc. reflexivity.
Qed.

Lemma annotate_entry_extends verbose d entry st :
  job_extends st
    (snd (AnnotationConv.annotate_entry format_chat_message textwrap_fill
            verbose d entry st)).
Proof.
  destruct st as [self w].
  unfold AnnotationConv.annotate_entry, AnnotationConv.annotator_speak,
    AnnotationConv.append_log, print, bind, lift_result, get,
    on_snd, on_agents, modify, ret.
  cbn -[deque.append unpack2].
  destruct (unpack2 entry) as [[username message] | e];
    [| apply job_extends_refl].
  cbn -[deque.append].
  destruct (actor_speak _ _ (agents w)) as [[r | e] x'].
  - destruct verbose; cbn; unfold job_extends; cbn; repeat split;
      try (eexists; reflexivity).
    + eexists. rewrite <- app_assoc. reflexivity.
    + exists []. rewrite app_nil_r. reflexivity.
  - cbn. unfold job_extends; cbn; repeat split;
      exists []; rewrite app_nil_r; reflexivity.
Qed.

Lemma annotate_all_extends verbose entries : forall d st,
  job_extends st
    (snd (for_in entries d
            (AnnotationConv.annotate_entry format_chat_message textwrap_fill
               verbose) st)).
Proof.
  induction entries as [| entry rest IH]; intros d st;
    [apply job_extends_refl |].
  rewrite for_in_cons. unfold bind.
  pose proof (annotate_entry_extends verbose d entry st) as Hstep.
  destruct (AnnotationConv.annotate_entry _ _ verbose d entry st)
    as [[d' | e] st1]; cbn [snd] in Hstep |- *; [| exact Hstep].
  eapply job_extends_trans; [exact Hstep | apply IH].
Qed.

(** X3. Whatever the job, the world and the outcome (normal return or
    exception), [begin_annotation] only appends to the annotation log and
    to the standard output and lets the annotator act on the agents: the
    entries already in the log stay where they are, and the annotator,
    the context length, the transcript, the files and the clock are
    untouched. *)
Theorem begin_annotation_extends verbose st :
  job_extends st
    (snd (AnnotationConv.begin_annotation format_chat_message textwrap_fill
            verbose st)).
Proof.
  unfold AnnotationConv.begin_annotation.
  unfold bind at 1, get. unfold bind at 1, lift_result.
  destruct (deque.new _) as [d | e]; [| apply job_extends_refl].
  unfold bind at 1.
  destruct (py_getitem _ _) as [logs | e]; [| apply job_extends_refl].
  unfold bind at 1.
  destruct (py_iter logs) as [entries | e]; [| apply job_extends_refl].
  unfold bind at 1, ret.
  pose proof (annotate_all_extends verbose entries d st) as Hall.
  destruct (for_in _ _ _ st) as [[d' | e] st']; exact Hall.
Qed.

(** X4. The [verbose] flag changes the standard output and nothing
    else. On a transcript of [n] pairs (annotator that never raises) the
    outcome, the job and the agents are the same with or without it; a
    quiet run prints nothing, a verbose run prints [2 * n] lines: for each
    entry the filled formatted message, then its annotation. *)
Theorem begin_annotation_verbose a k logs doc pairs w :
  0 <= k ->
  py_getitem doc "logs" = Ok (transcript pairs) ->
  (forall h, never_raises (actor_speak a h)) ->
  let st := (AnnotationConv.mk a k logs doc, w) in
  let quiet := AnnotationConv.begin_annotation format_chat_message
                 textwrap_fill false st in
  let loud := AnnotationConv.begin_annotation format_chat_message
                textwrap_fill true st in
  fst loud = fst quiet
  /\ fst (snd loud) = fst (snd quiet)
  /\ agents (snd (snd loud)) = agents (snd (snd quiet))
  /\ stdout (snd (snd quiet)) = stdout w
  /\ length (stdout (snd (snd loud))) = (length (stdout w) + 2 * length pairs)%nat
  /\ exists rs,
       AnnotationConv.annotation_logs (fst (snd loud))
       = logs ++ combine (messages pairs) rs
       /\ stdout (snd (snd loud))
          = stdout w
            ++ echoed textwrap_fill true
                 (formatted format_chat_message pairs) rs.
Proof.
  intros Hk Hlogs Hnr st quiet loud.
  destruct (speak_each_total a Hnr
              (map (window k (formatted format_chat_message pairs))
                   (seq 1 (length pairs))) (agents w))
    as (rs & x' & Hall & Hlen).
  rewrite length_map, length_seq in Hlen.
  subst quiet loud st.
  rewrite !(begin_annotation_ok format_chat_message textwrap_fill _ a k logs
              doc pairs w rs x' Hk Hlogs Hall).
  cbn [fst snd printed stdout agents set_agents].
  rewrite echoed_quiet, app_nil_r.
  repeat split.
  - rewrite length_app, echoed_length
      by (unfold formatted; rewrite length_map; lia).
    unfold formatted. rewrite length_map. reflexivity.
  - exists rs. split; reflexivity.
Qed.

(** X5. A negative [history_ctx_len] is accepted by the constructor and
    refused only when the job is run: [begin_annotation] then raises the
    deque's [ValueError] before it reads the transcript, without calling
    the annotator and without changing the job or the world. *)
Theorem negative_history_ctx_len verbose a conv_logs_path k doc w :
  files w !! conv_logs_path = Some (Some doc) ->
  k < 0 ->
  AnnotationConv.init a conv_logs_path (Some k) w
  = (Ok (AnnotationConv.mk a k [] doc), w)
  /\ AnnotationConv.begin_annotation format_chat_message textwrap_fill verbose
       (AnnotationConv.mk a k [] doc, w)
     = (Raise (ValueError "maxlen must be non-negative"),
        (AnnotationConv.mk a k [] doc, w)).
Proof.
  intros Hfile Hk. split.
  - apply init_fresh. exact Hfile.
  - unfold AnnotationConv.begin_annotation.
    unfold bind at 1, get. unfold bind at 1, lift_result.
    cbn [fst AnnotationConv.history_ctx_len]. unfold deque.new.
    destruct (Z.ltb_spec k 0); [reflexivity | lia].
Qed.

(** X6. With [history_ctx_len = 0] every entry is pushed and dropped at
    once: each call of [speak] receives the empty history, so the
    annotator never sees the message it is asked to annotate. *)
Theorem zero_history_ctx_len verbose a logs doc pairs w :
  py_getitem doc "logs" = Ok (transcript pairs) ->
  let run := AnnotationConv.begin_annotation format_chat_message textwrap_fill
               verbose (AnnotationConv.mk (spy a) 0 logs doc, spied w) in
  Forall (fun h => h = []) (spied_histories (snd (snd run)))
  /\ ((forall h, never_raises (actor_speak a h)) ->
      length (spied_histories (snd (snd run))) = length pairs).
Proof.
  intros Hlogs run. split.
  - destruct (begin_annotation_spied_histories format_chat_message
                textwrap_fill verbose a 0 logs doc pairs (spied w)
                ltac:(lia) Hlogs) as (m & Hm & Hhist).
    subst run. rewrite Hhist. cbn [spied_histories spied agents set_agents
      snd map app].
    apply Forall_take. apply List.Forall_forall. intros h Hin.
    apply in_map_iff in Hin as (i & <- & _). apply window_zero.
  - intros Hnr.
    destruct (begin_annotation_spied format_chat_message textwrap_fill
                verbose a 0 logs doc pairs (spied w) ltac:(lia) Hlogs Hnr)
      as (rs & x' & Hlen & Hrun).
    subst run. rewrite Hrun. unfold spied_histories. cbn.
    rewrite length_map, length_combine, !length_map, length_seq. lia.
Qed.

End AnnotationFrame.

Lemma begin_annotation_bad_entry_witness :
  fst (AnnotationConv.begin_annotation demo_format (fun s => s) true
         (AnnotationConv.mk (LlmActor_IActor demo_annotator) 2 []
            demo_broken_doc, demo_world))
  = Raise (ValueError "too many values to unpack (expected 2)").
Proof.
  destruct (begin_annotation_bad_entry demo_format (fun s => s) true
              (LlmActor_IActor demo_annotator) 2 [] demo_broken_doc
              [(PStr "a", PStr "x")] (PList [PStr "b"; PStr "y"; PStr "z"])
              [PList [PStr "c"; PStr "w"]] demo_world
              (ValueError "too many values to unpack (expected 2)"))
    as (rs & x' & _ & Hrun);
    [lia | reflexivity | reflexivity
     | intros h s; eexists _, _; reflexivity |].
  rewrite Hrun. reflexivity.
Defined.

Lemma begin_annotation_annotator_failure_witness :
  let run := AnnotationConv.begin_annotation demo_format (fun s => s) true
               (AnnotationConv.mk (LlmActor_IActor demo_flaky_annotator) 2 []
                  demo_doc, demo_world) in
  fst run = Raise (ValueError "backend unavailable")
  /\ AnnotationConv.annotation_logs (fst (snd run)) = [(PStr "x", "fine")].
Proof.
  cbv zeta.
  rewrite (begin_annotation_annotator_failure demo_format (fun s => s) true
             (LlmActor_IActor demo_flaky_annotator) 2 [] demo_doc
             [(PStr "a", PStr "x")] (PStr "b", PStr "y")
             [(PStr "c", PStr "z")] demo_world ["fine"]
             [prompt_call demo_flaky_annotator ["a: x"]]
             (ValueError "backend unavailable")
             [prompt_call demo_flaky_annotator ["a: x"];
              prompt_call demo_flaky_annotator ["a: x"; "b: y"]]);
    [split; reflexivity | lia | reflexivity | reflexivity | reflexivity].
Defined.

Lemma begin_annotation_verbose_witness :
  stdout (snd (snd (AnnotationConv.begin_annotation demo_format (fun s => s)
                      false
                      (AnnotationConv.mk (LlmActor_IActor demo_annotator) 2 []
                         demo_doc, demo_world))))
  = stdout demo_world.
Proof.
  apply (begin_annotation_verbose demo_format (fun s => s)
           (LlmActor_IActor demo_annotator) 2 [] demo_doc demo_pairs
           demo_world);
    [lia | reflexivity | intros h s; eexists _, _; reflexivity].
Defined.

Lemma negative_history_ctx_len_witness :
  AnnotationConv.begin_annotation demo_format (fun s => s) true
    (AnnotationConv.mk (LlmActor_IActor demo_annotator) (-1) [] demo_doc,
     demo_file_world)
  = (Raise (ValueError "maxlen must be non-negative"),
     (AnnotationConv.mk (LlmActor_IActor demo_annotator) (-1) [] demo_doc,
      demo_file_world)).
Proof.
  apply (negative_history_ctx_len demo_format (fun s => s) true
           (LlmActor_IActor demo_annotator) "t.json" (-1) demo_doc
           demo_file_world);
    [vm_compute; reflexivity | lia].
Defined.

Lemma zero_history_ctx_len_witness :
  Forall (fun h => h = [])
    (spied_histories
       (snd (snd (AnnotationConv.begin_annotation demo_format (fun s => s) true
                    (AnnotationConv.mk (spy (LlmActor_IActor demo_annotator))
                       0 [] demo_doc, spied demo_world))))).
Proof.
  apply (zero_history_ctx_len demo_format (fun s => s) true
           (LlmActor_IActor demo_annotator) [] demo_doc demo_pairs demo_world).
  reflexivity.
Defined.

(** ** Exporting an annotation job *)

(** X7. When the transcript has no usable id, [to_json_file] raises
    the error of the lookup, and by then it has already opened the output
    file for writing: the job is unchanged, but the file is left empty,
    whatever it held before, and can no longer be loaded. *)
Theorem to_json_file_failure_truncates {X : Type} (py_str : pyval -> string)
    (output_path : string) (self : AnnotationConv.t X) (w : World X) (e : exn) :
  py_getitem (AnnotationConv.conv_data_dict self) "id" = Raise e ->
  let run := AnnotationConv.to_json_file py_str output_path (self, w) in
  fst run = Raise e
  /\ fst (snd run) = self
  /\ files (snd (snd run)) = <[output_path := None]> (files w)
  /\ fst (json_load_file output_path (snd (snd run)))
     = Raise (ValueError "JSONDecodeError").
Proof.
  intros Hid run. subst run.
  unfold AnnotationConv.to_json_file, AnnotationConv.to_dict, bind, get,
    lift_result, on_snd, open_for_writing, modify.
  cbn [fst snd]. rewrite Hid. cbn [fst snd files set_files].
  repeat split.
  unfold json_load_file, set_files. cbn [files fst snd].
  rewrite lookup_insert_eq. reflexivity.
Qed.

Lemma to_json_file_failure_truncates_witness :
  fst (json_load_file "t.json"
         (snd (snd (AnnotationConv.to_json_file (fun _ => "7") "t.json"
                      (AnnotationConv.mk (LlmActor_IActor demo_annotator) 2 []
                         demo_doc_no_id, demo_file_world)))))
  = Raise (ValueError "JSONDecodeError").
Proof.
  apply (to_json_file_failure_truncates (fun _ => "7") "t.json"
           (AnnotationConv.mk (LlmActor_IActor demo_annotator) 2 []
              demo_doc_no_id) demo_file_world (KeyError "id")).
  reflexivity.
Defined.

(** A value without tuples is its own image. *)
Lemma json_image_fixed : forall v : pyval, is_json v = true -> json_image v = v.
Proof.
  fix IH 1. intros [| b | z | f | s | l | l | items] Hv;
    try reflexivity; try discriminate Hv.
  - cbn [json_image]. f_equal. cbn [is_json] in Hv.
    induction l as [| x l IHl]; [reflexivity |].
    cbn [forallb] in Hv. apply andb_prop in Hv as [Hx Hl].
    cbn [map]. f_equal; [apply IH; exact Hx | apply IHl; exact Hl].
  - rewrite json_image_dict. f_equal. cbn [is_json] in Hv.
    induction items as [| [k x] items IHl]; [reflexivity |].
    cbn [forallb snd] in Hv. apply andb_prop in Hv as [Hx Hl].
    cbn [map fst snd]. f_equal; [f_equal; apply IH; exact Hx | apply IHl; exact Hl].
Qed.

Lemma is_json_assoc (key : string) (items : list (string * pyval)) (v : pyval) :
  forallb (fun kv => is_json (snd kv)) items = true ->
  assoc key items = Some v -> is_json v = true.
Proof.
  induction items as [| [k x] items IH]; [discriminate |].
  cbn [forallb assoc snd]. intros Hall Hv.
  apply andb_prop in Hall as [Hx Hrest].
  destruct (String.eqb k key); [injection Hv as <-; exact Hx | auto].
Qed.

Lemma is_json_getitem (doc : pyval) (key : string) (v : pyval) :
  is_json doc = true -> py_getitem doc key = Ok v -> is_json v = true.
Proof.
  destruct doc as [| | | | | | | items]; try discriminate.
  cbn [is_json py_getitem]. intros Hdoc Hv.
  destruct (assoc key items) as [x |] eqn:Hx; [| discriminate].
  injection Hv as <-. eapply is_json_assoc; eassumption.
Qed.

Lemma is_json_messages (pairs : list (pyval * pyval)) :
  is_json (transcript pairs) = true ->
  Forall (fun m => json_image m = m) (messages pairs).
Proof.
  unfold transcript, messages. cbn [is_json].
  induction pairs as [| [u m] pairs IH]; intros Hall; [constructor |].
  cbn [map forallb pair_entry is_json fst snd] in Hall.
  apply andb_prop in Hall as [Hentry Hrest].
  apply andb_prop in Hentry as [_ Hm]. apply andb_prop in Hm as [Hm _].
  cbn [map snd]. constructor; [apply json_image_fixed; exact Hm | auto].
Qed.

Lemma map_image_combine (msgs : list pyval) (rs : list string) :
  Forall (fun m => json_image m = m) msgs ->
  map (fun e : pyval * string => (json_image (fst e), snd e)) (combine msgs rs)
  = combine msgs rs.
Proof.
  intros Hall. revert rs.
  induction Hall as [| m msgs Hm Hall IH]; intros [| r rs]; try reflexivity.
  cbn. rewrite Hm, IH. reflexivity.
Qed.

Section AnnotationExport.

Context {X : Type}.
Variable format_chat_message : pyval -> pyval -> string.
Variable textwrap_fill : string -> string.
Variable py_str : pyval -> string.

(** X8. A fresh job over a transcript read from a file (a document
    without tuples, with an id), run to completion and exported with
    [to_json_file], leaves a file that loads again; its ["logs"] field
    reads back as the annotation log of the job, pair by pair, and its
    ["ctx_length"] and ["conv_id"] are the job's context length and the
    string of the transcript's id. *)
Theorem annotation_file_roundtrip verbose (a : IActor X) k doc conv_id pairs
    output_path (w : World X) :
  0 <= k ->
  is_json doc = true ->
  py_getitem doc "logs" = Ok (transcript pairs) ->
  py_getitem doc "id" = Ok conv_id ->
  (forall h, never_raises (actor_speak a h)) ->
  let run := bind (AnnotationConv.begin_annotation format_chat_message
                     textwrap_fill verbose)
                  (fun _ => AnnotationConv.to_json_file py_str output_path)
                  (AnnotationConv.mk a k [] doc, w) in
  fst run = Ok tt
  /\ exists saved,
       json_load_file output_path (snd (snd run)) = (Ok saved, snd (snd run))
       /\ read_logs saved
          = Some (AnnotationConv.annotation_logs (fst (snd run)))
       /\ length (AnnotationConv.annotation_logs (fst (snd run))) = length pairs
       /\ py_getitem saved "ctx_length" = Ok (PInt k)
       /\ py_getitem saved "conv_id" = Ok (PStr (py_str conv_id)).
Proof.
  intros Hk Hjson Hlogs Hid Hnr run.
  destruct (speak_each_total a Hnr
              (map (window k (formatted format_chat_message pairs))
                   (seq 1 (length pairs))) (agents w))
    as (rs & x' & Hall & Hlen).
  rewrite length_map, length_seq in Hlen.
  subst run.
  erewrite bind_ok
    by (apply (begin_annotation_ok format_chat_message textwrap_fill);
        eassumption).
  cbn [app].
  match goal with
  | |- context [AnnotationConv.to_json_file py_str output_path ?st] =>
      set (st1 := st)
  end.
  assert (Hdict : exists export,
             AnnotationConv.to_dict py_str
               AnnotationConv.default_timestamp_format st1 = (Ok export, st1)
             /\ py_getitem export "logs"
                = Ok (PList (map AnnotationConv.log_entry
                               (combine (messages pairs) rs)))
             /\ py_getitem (json_image export) "ctx_length" = Ok (PInt k)
             /\ py_getitem (json_image export) "conv_id"
                = Ok (PStr (py_str conv_id))).
  { unfold AnnotationConv.to_dict, bind, get, lift_result, ret. subst st1.
    cbn [fst snd AnnotationConv.conv_data_dict]. rewrite Hid.
    eexists. split; [reflexivity |]. repeat split. }
  destruct Hdict as (export & Hdict & Hfield & Hctx & Hconv).
  destruct (to_json_file_writes_export py_str output_path st1 export Hdict)
    as (w' & Hwrite & Hfile).
  rewrite Hwrite. cbn [fst snd]. split; [reflexivity |].
  exists (json_image export). repeat split.
  - unfold json_load_file. rewrite Hfile. reflexivity.
  - rewrite (read_logs_json_image export _ Hfield). subst st1. cbn [fst
      AnnotationConv.annotation_logs]. f_equal.
    apply map_image_combine, is_json_messages.
    eapply is_json_getitem; eassumption.
  - subst st1. cbn [fst AnnotationConv.annotation_logs].
    rewrite length_combine. unfold messages. rewrite length_map. lia.
  - exact Hctx.
  - exact Hconv.
Qed.

End AnnotationExport.

Lemma annotation_file_roundtrip_witness :
  exists saved,
    json_load_file "out.json"
      (snd (snd (bind (AnnotationConv.begin_annotation demo_format
                         (fun s => s) false)
                      (fun _ => AnnotationConv.to_json_file (fun _ => "7")
                                  "out.json")
                      (AnnotationConv.mk (LlmActor_IActor demo_annotator) 2 []
                         demo_doc, demo_world))))
    = (Ok saved,
       snd (snd (bind (AnnotationConv.begin_annotation demo_format
                         (fun s => s) false)
                      (fun _ => AnnotationConv.to_json_file (fun _ => "7")
                                  "out.json")
                      (AnnotationConv.mk (LlmActor_IActor demo_annotator) 2 []
                         demo_doc, demo_world))))
    /\ py_getitem saved "ctx_length" = Ok (PInt 2).
Proof.
  destruct (annotation_file_roundtrip demo_format (fun s => s) (fun _ => "7")
              false (LlmActor_IActor demo_annotator) 2 demo_doc (PInt 7)
              demo_pairs "out.json" demo_world)
    as (_ & saved & Hload & _ & _ & Hctx & _);
    [lia | reflexivity | reflexivity | reflexivity
     | intros h s; eexists _, _; reflexivity |].
  exists saved. split; [exact Hload | exact Hctx].
Defined.

(** ** Actors, continued *)

Lemma string_app_assoc (s1 s2 s3 : string) :
  (s1 +:+ s2) +:+ s3 = s1 +:+ s2 +:+ s3.
Proof.
  induction s1 as [| c s1 IH]; [reflexivity |].
  change (String c ((s1 +:+ s2) +:+ s3) = String c (s1 +:+ s2 +:+ s3)).
  f_equal. exact IH.
Qed.

Lemma join_cons (sep x : string) (l : list string) :
  l <> [] -> join sep (x :: l) = x +:+ sep +:+ join sep l.
Proof. destruct l; [contradiction | reflexivity]. Qed.

(** Joining cannot tell an entry that contains the separator from two
    entries. *)
Lemma join_split (sep a b : string) (l1 l2 : list string) :
  join sep (l1 ++ [a +:+ sep +:+ b] ++ l2) = join sep (l1 ++ [a; b] ++ l2).
Proof.
  induction l1 as [| x l1 IH].
  - cbn [app]. destruct l2 as [| c l2]; [reflexivity |].
    rewrite !join_cons by discriminate.
    rewrite !string_app_assoc. reflexivity.
  - cbn [app]. rewrite !join_cons by (destruct l1; discriminate).
    cbn [app] in IH. rewrite IH. reflexivity.
Qed.

(** X9. The prompt of either actor variant does not keep the history
    entries apart: an entry that contains a newline yields the same
    message prompt as the two entries it splits into. *)
Theorem message_prompt_newline_ambiguity (self : LlmActor.t)
    (before after : list string) (a b : string) :
  LlmActor._message_prompt self (before ++ [a +:+ newline +:+ b] ++ after)
  = LlmActor._message_prompt self (before ++ [a; b] ++ after).
Proof.
  unfold LlmActor._message_prompt, LlmActor.LLMUser_message_prompt,
    LlmActor.LLMAnnotator_message_prompt.
  rewrite join_split. reflexivity.
Qed.

(** An LLM actor whose model always answers, asked about each history in
    turn, issues one prompt per history, in order. *)
Lemma speak_each_llm (a : LlmActor.t) :
  (forall log messages stop_list,
      exists text, generate (LlmActor.model a) log messages stop_list
                   = Ok text) ->
  forall histories log, exists rs,
    speak_each (LlmActor_IActor a) histories log
    = (Ok rs, log ++ map (prompt_call a) histories)
    /\ length rs = length histories.
Proof.
  intros Hgen. induction histories as [| h rest IH]; intros log.
  - exists []. cbn. rewrite app_nil_r. auto.
  - destruct (Hgen log [LlmActor._system_prompt a;
                        LlmActor._message_prompt a h] ["User"])
      as [text Htext].
    destruct (IH (log ++ [prompt_call a h])) as (rs & Hrs & Hlen).
    exists (text :: rs). split; [| simpl; f_equal; exact Hlen].
    cbn [speak_each].
    erewrite bind_ok.
    2:{ unfold LlmActor_IActor. cbn [actor_speak]. rewrite speak_run.
        rewrite Htext. cbn [snd]. reflexivity. }
    erewrite bind_ok by exact Hrs.
    cbn [map]. rewrite <- app_assoc. reflexivity.
Qed.

(** X10. An annotation run with an LLM annotator whose model always
    answers sends the model exactly one prompt per transcript entry, in
    order and with nothing in between: the prompt for entry [i] is built
    from the actor's system prompt and the message prompt of the window
    at [i], with the stop list [["User"]]. *)
Theorem llm_annotation_prompts (format_chat_message : pyval -> pyval -> string)
    (textwrap_fill : string -> string) (verbose : bool) (a : LlmActor.t)
    (k : Z) logs doc pairs (w : World Agents) :
  0 <= k ->
  py_getitem doc "logs" = Ok (transcript pairs) ->
  (forall log messages stop_list,
      exists text, generate (LlmActor.model a) log messages stop_list
                   = Ok text) ->
  let run := AnnotationConv.begin_annotation format_chat_message textwrap_fill
               verbose (AnnotationConv.mk (LlmActor_IActor a) k logs doc, w) in
  fst run = Ok tt
  /\ agents (snd (snd run))
     = agents w
       ++ map (fun i =>
                 mkCall (model_id (LlmActor.model a))
                   [LlmActor._system_prompt a;
                    LlmActor._message_prompt a
                      (last_n (Nat.min (Z.to_nat k) i)
                         (take i (formatted format_chat_message pairs)))]
                   ["User"])
              (seq 1 (length pairs)).
Proof.
  intros Hk Hlogs Hgen run.
  destruct (speak_each_llm a Hgen
              (map (window k (formatted format_chat_message pairs))
                   (seq 1 (length pairs))) (agents w))
    as (rs & Hall & Hlen).
  subst run.
  rewrite (begin_annotation_ok format_chat_message textwrap_fill verbose _ k
             logs doc pairs w rs _ Hk Hlogs Hall).
  cbn [fst snd printed agents set_agents]. split; [reflexivity |].
  rewrite map_map. reflexivity.
Qed.

Lemma llm_annotation_prompts_witness :
  agents (snd (snd (AnnotationConv.begin_annotation demo_format (fun s => s)
                      true
                      (AnnotationConv.mk (LlmActor_IActor demo_annotator) 1 []
                         demo_doc, demo_world))))
  = [ prompt_call demo_annotator ["a: x"];
      prompt_call demo_annotator ["b: y"];
      prompt_call demo_annotator ["c: z"] ].
Proof.
  apply (llm_annotation_prompts demo_format (fun s => s) true demo_annotator 1
           [] demo_doc demo_pairs demo_world);
    [lia | reflexivity | intros log messages stop_list; eexists; reflexivity].
Defined.

(** ** LLMConvData: what a loaded instance holds *)

Lemma required_inv kwargs key (v : pyval) :
  LLMConvData.Raw.required kwargs key = Ok v -> assoc key kwargs = Some v.
Proof.
  unfold LLMConvData.Raw.required.
  destruct (assoc key kwargs); [intros [= ->]; reflexivity | discriminate].
Qed.

(** Everything the constructor did on the way to an instance. *)
Lemma init_kwargs_inv (kwargs : list (string * pyval)) (r : LLMConvData.Raw.t) :
  LLMConvData.Raw.init_kwargs kwargs = Ok r ->
  assoc "context" kwargs = Some (LLMConvData.Raw.context r)
  /\ assoc "user_names" kwargs = Some (LLMConvData.Raw.user_names r)
  /\ assoc "user_attributes" kwargs = Some (LLMConvData.Raw.user_attributes r)
  /\ assoc "user_instructions" kwargs
     = Some (LLMConvData.Raw.user_instructions r)
  /\ assoc "turn_manager_type" kwargs
     = Some (LLMConvData.Raw.turn_manager_type r)
  /\ LLMConvData.Raw.turn_manager_config r
     = default (PDict []) (assoc "turn_manager_config" kwargs)
  /\ LLMConvData.Raw.conv_len r = default (PInt 4) (assoc "conv_len" kwargs)
  /\ LLMConvData.Raw.history_ctx_len r
     = default (PInt 4) (assoc "history_ctx_len" kwargs)
  /\ LLMConvData.Raw.moderator_name r
     = default PNone (assoc "moderator_name" kwargs)
  /\ LLMConvData.Raw.moderator_attributes r
     = default PNone (assoc "moderator_attributes" kwargs)
  /\ LLMConvData.Raw.moderator_instructions r
     = default PNone (assoc "moderator_instructions" kwargs)
  /\ LLMConvData.Raw.__post_init__ r = Ok tt.
Proof.
  unfold LLMConvData.Raw.init_kwargs.
  destruct (negb _); [discriminate |].
  intros H.
  repeat match type of H with
         | and_then (LLMConvData.Raw.required ?kw ?k) _ = Ok _ =>
             let x := fresh "x" in
             let Hx := fresh "Hx" in
             destruct (LLMConvData.Raw.required kw k) as [x |] eqn:Hx;
             cbn [and_then] in H; [apply required_inv in Hx | discriminate H]
         end.
  cbv zeta in H.
  destruct (LLMConvData.Raw.__post_init__ _) as [[] |] eqn:Hpost;
    cbn [and_then] in H; [| discriminate H].
  injection H as <-. unfold LLMConvData.Raw.with_default in *.
  cbn. repeat split; assumption.
Qed.

Lemma assoc_filter (key : string) (items : list (string * pyval)) :
  LLMConvData.is_field key = true ->
  assoc key (List.filter (fun kv => LLMConvData.is_field (fst kv)) items)
  = assoc key items.
Proof.
  intros Hkey. induction items as [| [k v] items IH]; [reflexivity |].
  cbn [List.filter fst assoc].
  destruct (LLMConvData.is_field k) eqn:Hk.
  - cbn [assoc]. destruct (String.eqb k key); [reflexivity | exact IH].
  - destruct (String.eqb_spec k key) as [-> | _]; [congruence | exact IH].
Qed.

Lemma forallb_filter_fields (items : list (string * pyval)) :
  forallb (fun kv => LLMConvData.is_field (fst kv))
    (List.filter (fun kv => LLMConvData.is_field (fst kv)) items) = true.
Proof.
  induction items as [| [k v] items IH]; [reflexivity |].
  cbn [List.filter fst]. destruct (LLMConvData.is_field k) eqn:Hk;
    [cbn [forallb fst]; rewrite Hk, IH; reflexivity | exact IH].
Qed.

(** What [from_json_file] does with a file that holds an object. *)
Lemma from_json_file_object {X : Type} (path : string)
    (items : list (string * pyval)) (w : World X) :
  files w !! path = Some (Some (PDict items)) ->
  LLMConvData.from_json_file path w
  = (LLMConvData.Raw.init_kwargs
       (List.filter (fun kv => LLMConvData.is_field (fst kv)) items), w).
Proof.
  intros Hfile.
  unfold LLMConvData.from_json_file, json_load_file, bind, lift_result.
  rewrite Hfile. reflexivity.
Qed.

Lemma is_field_cases (key : string) :
  LLMConvData.is_field key = true -> In key LLMConvData.field_names.
Proof.
  unfold LLMConvData.is_field. intros H.
  apply existsb_exists in H as (name & Hin & Heq).
  apply String.eqb_eq in Heq as ->. exact Hin.
Qed.

(** X11. An instance that [from_json_file] returns holds what the
    document says, whatever the types of the values: every field key of
    the document has, in [asdict] of the instance, the value it has in
    the document; and a field with a default that the document leaves out
    has its default: an empty dictionary for [turn_manager_config], [4]
    for [conv_len] and [history_ctx_len], [None] for the moderator
    fields. *)
Theorem loaded_fields_match_document {X : Type} (path : string)
    (items : list (string * pyval)) (w : World X) (r : LLMConvData.Raw.t) :
  files w !! path = Some (Some (PDict items)) ->
  fst (LLMConvData.from_json_file path w) = Ok r ->
  (forall key v,
      assoc key items = Some v ->
      LLMConvData.is_field key = true ->
      py_getitem (LLMConvData.Raw.asdict r) key = Ok v)
  /\ (assoc "turn_manager_config" items = None ->
      LLMConvData.Raw.turn_manager_config r = PDict [])
  /\ (assoc "conv_len" items = None -> LLMConvData.Raw.conv_len r = PInt 4)
  /\ (assoc "history_ctx_len" items = None ->
      LLMConvData.Raw.history_ctx_len r = PInt 4)
  /\ (assoc "moderator_name" items = None ->
      LLMConvData.Raw.moderator_name r = PNone)
  /\ (assoc "moderator_attributes" items = None ->
      LLMConvData.Raw.moderator_attributes r = PNone)
  /\ (assoc "moderator_instructions" items = None ->
      LLMConvData.Raw.moderator_instructions r = PNone).
Proof.
  intros Hfile Hload. rewrite (from_json_file_object path items w Hfile) in Hload.
  cbn [fst] in Hload.
  apply init_kwargs_inv in Hload
    as (Hctx & Hnames & Hattrs & Hinstr & Htype & Hcfg & Hcl & Hhl
        & Hmn & Hma & Hmi & _).
  rewrite (assoc_filter "context" items eq_refl) in Hctx.
  rewrite (assoc_filter "user_names" items eq_refl) in Hnames.
  rewrite (assoc_filter "user_attributes" items eq_refl) in Hattrs.
  rewrite (assoc_filter "user_instructions" items eq_refl) in Hinstr.
  rewrite (assoc_filter "turn_manager_type" items eq_refl) in Htype.
  rewrite (assoc_filter "turn_manager_config" items eq_refl) in Hcfg.
  rewrite (assoc_filter "conv_len" items eq_refl) in Hcl.
  rewrite (assoc_filter "history_ctx_len" items eq_refl) in Hhl.
  rewrite (assoc_filter "moderator_name" items eq_refl) in Hmn.
  rewrite (assoc_filter "moderator_attributes" items eq_refl) in Hma.
  rewrite (assoc_filter "moderator_instructions" items eq_refl) in Hmi.
  split; [| repeat split; intros Hnone;
            match goal with
            | H : _ = default _ (assoc ?k items) |- _ ?r' = _ =>
                rewrite Hnone in H; exact H
            end].
  intros key v Hv Hfield.
  pose proof (is_field_cases key Hfield) as Hin.
  cbn [In LLMConvData.field_names] in Hin.
  destruct Hin as [<- | [<- | [<- | [<- | [<- | [<- | [<- | [<- | [<- |
    [<- | [<- | []]]]]]]]]]]];
    rewrite Hv in *; cbn [default from_option] in *; unfold id in *;
    unfold LLMConvData.Raw.asdict;
    cbn [py_getitem assoc String.eqb Ascii.eqb Bool.eqb andb];
    congruence.
Qed.

(** X12. Whatever the file holds, an instance that [from_json_file]
    returns has a [user_names] and a [user_attributes] of the same
    [len()], and reading it has not changed the world. *)
Theorem loaded_instance_invariant {X : Type} (path : string) (w w' : World X)
    (r : LLMConvData.Raw.t) :
  LLMConvData.from_json_file path w = (Ok r, w') ->
  (exists n,
      py_len (LLMConvData.Raw.user_names r) = Ok n
      /\ py_len (LLMConvData.Raw.user_attributes r) = Ok n)
  /\ w' = w.
Proof.
  unfold LLMConvData.from_json_file, json_load_file, bind, lift_result.
  destruct (files w !! path) as [[doc |] |]; try discriminate.
  destruct doc; cbn [LLMConvData.py_items]; try discriminate.
  intros H. injection H as H <-. split; [| reflexivity].
  apply init_kwargs_inv in H.
  destruct H as (_ & _ & _ & _ & _ & _ & _ & _ & _ & _ & _ & Hpost).
  unfold LLMConvData.Raw.__post_init__ in Hpost.
  destruct (py_len (LLMConvData.Raw.user_names r)) as [n |];
    cbn [and_then] in Hpost; [| discriminate Hpost].
  destruct (py_len (LLMConvData.Raw.user_attributes r)) as [m |];
    cbn [and_then] in Hpost; [| discriminate Hpost].
  destruct (Nat.eqb_spec n m) as [-> | _]; [| discriminate Hpost].
  exists m. split; reflexivity.
Qed.

(** X13. A document that lacks one of the five fields without a default
    is refused with a [TypeError], whatever else it holds, and the world
    is unchanged. *)
Theorem from_json_file_missing_field {X : Type} (path : string)
    (items : list (string * pyval)) (key : string) (w : World X) :
  files w !! path = Some (Some (PDict items)) ->
  In key required_fields ->
  assoc key items = None ->
  exists msg,
    LLMConvData.from_json_file path w = (Raise (TypeError msg), w).
Proof.
  intros Hfile Hkey Hnone.
  rewrite (from_json_file_object path items w Hfile).
  enough (LLMConvData.Raw.init_kwargs
            (List.filter (fun kv => LLMConvData.is_field (fst kv)) items)
          = Raise (TypeError "missing required positional argument"))
    as -> by eauto.
  unfold LLMConvData.Raw.init_kwargs. rewrite forallb_filter_fields.
  cbn [negb]. unfold LLMConvData.Raw.required.
  cbn [In required_fields] in Hkey.
  destruct Hkey as [<- | [<- | [<- | [<- | [<- | []]]]]];
    match type of Hnone with
    | assoc ?k _ = None => rewrite <- (assoc_filter k items eq_refl) in Hnone
    end;
    rewrite Hnone;
    repeat match goal with
           | |- context [match assoc ?k ?l with _ => _ end] =>
               destruct (assoc k l); cbn [and_then]
           end;
    reflexivity.
Qed.

Lemma loaded_fields_match_document_witness :
  py_getitem (LLMConvData.Raw.asdict demo_min_config) "conv_len"
  = Ok (PStr "4")
  /\ LLMConvData.Raw.history_ctx_len demo_min_config = PInt 4.
Proof.
  destruct (loaded_fields_match_document "in.json" demo_min_items
              demo_config_world demo_min_config)
    as (Hfields & _ & _ & Hlen & _);
    [vm_compute; reflexivity | vm_compute; reflexivity |].
  split; [apply Hfields; reflexivity | apply Hlen; reflexivity].
Defined.

Lemma loaded_instance_invariant_witness :
  exists n,
    py_len (LLMConvData.Raw.user_names demo_min_config) = Ok n
    /\ py_len (LLMConvData.Raw.user_attributes demo_min_config) = Ok n.
Proof.
  apply (loaded_instance_invariant "in.json" demo_config_world
           demo_config_world demo_min_config).
  vm_compute. reflexivity.
Defined.

Lemma from_json_file_missing_field_witness :
  exists msg,
    LLMConvData.from_json_file "short.json" demo_config_world
    = (Raise (TypeError msg), demo_config_world).
Proof.
  apply (from_json_file_missing_field "short.json" demo_short_items
           "user_names" demo_config_world);
    [vm_compute; reflexivity | simpl; auto | reflexivity].
Defined.

(** ** LLMConvGenerator: the users and the moderator *)

Section GeneratorRuns.

Variable TurnManager : Type.
Variable turn_manager_factory : string -> list string -> result TurnManager.
Variable Conversation : Type.
Variable Conversation_init :
  TurnManager -> list LlmActor.t -> option LlmActor.t -> Z -> Z ->
  result Conversation.

Let produce_conversation :=
  LLMConvGenerator.produce_conversation TurnManager Conversation
    Conversation_init.

Implicit Types (self : LLMConvGenerator.t TurnManager).

(** The loop over the indices [i, i+1, ..., i+n-1], when these are the
    last indices of the names. *)
Lemma build_users_seq self (n : nat) : forall (i : nat) user_list,
  let d := LLMConvGenerator.data TurnManager self in
  (i + n)%nat = length (LLMConvData.user_names d) ->
  (i <= length (LLMConvData.user_attributes d))%nat ->
  LLMConvGenerator.build_users TurnManager self (seq i n) user_list
  = if decide (i + n <= length (LLMConvData.user_attributes d))%nat
    then Ok (user_list
             ++ zip_with
                  (user_of (LLMConvGenerator.user_model TurnManager self) d)
                  (drop i (LLMConvData.user_names d))
                  (drop i (LLMConvData.user_attributes d)))
    else Raise (IndexError "list index out of range").
Proof.
  cbv zeta. induction n as [| n IH]; intros i user_list Hnames Hattrs.
  - cbn [seq LLMConvGenerator.build_users].
    destruct (decide _); [| lia].
    rewrite (drop_ge (LLMConvData.user_names _)) by lia.
    cbn. rewrite app_nil_r. reflexivity.
  - cbn [seq LLMConvGenerator.build_users].
    destruct (lookup_lt_is_Some_2
                (LLMConvData.user_names
                   (LLMConvGenerator.data TurnManager self)) i ltac:(lia))
      as [name Hname].
    rewrite Hname.
    destruct (LLMConvData.user_attributes
                (LLMConvGenerator.data TurnManager self) !! i)
      as [attributes |] eqn:Hattr.
    + pose proof (lookup_lt_Some _ _ _ Hattr) as Hlt.
      rewrite IH by lia.
      destruct (decide (S i + n <= _)%nat); destruct (decide (i + S n <= _)%nat);
        try lia; [| reflexivity].
      rewrite (drop_S _ _ _ Hname), (drop_S _ _ _ Hattr).
      cbn [zip_with]. rewrite <- app_assoc. reflexivity.
    + apply lookup_ge_None in Hattr.
      destruct (decide _); [lia | reflexivity].
Qed.

(** X15. For a configuration with as many attribute lists as names,
    [produce_conversation] hands the constructor of [Conversation] one
    [LLMUser] per name, in the order of the names, each with the name and
    the attribute list of its position, the shared context and
    instructions, and the user model. *)
Theorem produce_conversation_users self :
  let d := LLMConvGenerator.data TurnManager self in
  length (LLMConvData.user_names d) = length (LLMConvData.user_attributes d) ->
  exists moderator,
    produce_conversation self
    = Conversation_init (LLMConvGenerator.next_turn_manager TurnManager self)
        (zip_with (user_of (LLMConvGenerator.user_model TurnManager self) d)
           (LLMConvData.user_names d) (LLMConvData.user_attributes d))
        moderator
        (LLMConvData.history_ctx_len d) (LLMConvData.conv_len d)
    /\ length (zip_with
                 (user_of (LLMConvGenerator.user_model TurnManager self) d)
                 (LLMConvData.user_names d) (LLMConvData.user_attributes d))
       = length (LLMConvData.user_names d).
Proof.
  cbv zeta. intros Hlen. subst produce_conversation.
  unfold LLMConvGenerator.produce_conversation.
  rewrite (build_users_seq self _ 0 []) by (cbn; lia).
  destruct (decide _); [| cbn in *; lia].
  cbn [and_then drop app]. eexists. split; [reflexivity |].
  rewrite length_zip_with. lia.
Qed.

(** X16. The lengths are checked when the configuration is built and
    never again: on a configuration that has since got more names than
    attribute lists, [produce_conversation] raises [IndexError] and the
    constructor of [Conversation] is not reached. *)
Theorem produce_conversation_stale self :
  let d := LLMConvGenerator.data TurnManager self in
  (length (LLMConvData.user_attributes d) < length (LLMConvData.user_names d))%nat ->
  produce_conversation self = Raise (IndexError "list index out of range").
Proof.
  cbv zeta. intros Hlen. subst produce_conversation.
  unfold LLMConvGenerator.produce_conversation.
  rewrite (build_users_seq self _ 0 []) by (cbn; lia).
  destruct (decide _); [cbn in *; lia | reflexivity].
Qed.

(** X17. A generator that [init] has built from a configuration with
    the three moderator fields has a moderator model (the constructor
    refuses a moderator name without one), so [produce_conversation]
    builds the moderator: an [LLMUser] bound to the moderator model, with
    the moderator's name, attributes and instructions and the context of
    the conversation. *)
Theorem generator_builds_moderator d user_model moderator_model g
    name attributes instructions :
  LLMConvGenerator.init TurnManager turn_manager_factory d (Some user_model)
    moderator_model = Ok g ->
  LLMConvData.moderator_name d = Some name ->
  LLMConvData.moderator_attributes d = Some attributes ->
  LLMConvData.moderator_instructions d = Some instructions ->
  length (LLMConvData.user_names d) = length (LLMConvData.user_attributes d) ->
  exists model,
    moderator_model = Some model
    /\ produce_conversation g
       = Conversation_init (LLMConvGenerator.next_turn_manager TurnManager g)
           (zip_with (user_of user_model d)
              (LLMConvData.user_names d) (LLMConvData.user_attributes d))
           (Some (LlmActor.mk LlmActor.LLMUser model name attributes
                    (LLMConvData.context d) instructions))
           (LLMConvData.history_ctx_len d) (LLMConvData.conv_len d).
Proof.
  intros Hinit Hn Ha Hi Hlen.
  unfold LLMConvGenerator.init in Hinit. rewrite Hn in Hinit.
  destruct moderator_model as [model |]; [| discriminate Hinit].
  cbn in Hinit.
  destruct (turn_manager_factory _ _) as [tm |]; [| discriminate Hinit].
  cbn in Hinit. injection Hinit as <-.
  exists model. split; [reflexivity |].
  subst produce_conversation. unfold LLMConvGenerator.produce_conversation.
  rewrite (build_users_seq _ _ 0 []) by (cbn; lia).
  cbn [LLMConvGenerator.data LLMConvGenerator.user_model
       LLMConvGenerator.moderator_model LLMConvGenerator.next_turn_manager].
  destruct (decide _); [| cbn in *; lia].
  cbn [and_then drop app]. rewrite Hn, Ha, Hi. reflexivity.
Qed.

End GeneratorRuns.

Lemma produce_conversation_users_witness :
  exists moderator,
    LLMConvGenerator.produce_conversation (list string) demo_Conversation
      demo_Conversation_init
      (LLMConvGenerator.mk (list string) demo_model None demo_config
         ["alice"; "bob"])
    = Ok (["alice"; "bob"],
          [ user_of demo_model demo_config "alice" ["calm"];
            user_of demo_model demo_config "bob" ["curious"; "blunt"] ],
          moderator, 2, 6).
Proof.
  destruct (produce_conversation_users (list string) demo_Conversation
              demo_Conversation_init
              (LLMConvGenerator.mk (list string) demo_model None demo_config
                 ["alice"; "bob"]))
    as (moderator & Hrun & _); [reflexivity |].
  exists moderator. exact Hrun.
Defined.

Lemma produce_conversation_stale_witness :
  LLMConvGenerator.produce_conversation (list string) demo_Conversation
    demo_Conversation_init
    (LLMConvGenerator.mk (list string) demo_model None demo_stale_config
       ["alice"; "bob"; "carol"])
  = Raise (IndexError "list index out of range").
Proof.
  apply (produce_conversation_stale (list string) demo_Conversation
           demo_Conversation_init).
  simpl. lia.
Defined.

Lemma generator_builds_moderator_witness :
  exists model,
    Some demo_model = Some model
    /\ LLMConvGenerator.produce_conversation (list string) demo_Conversation
         demo_Conversation_init
         (LLMConvGenerator.mk (list string) demo_model (Some demo_model)
            demo_config ["alice"; "bob"])
       = Ok (["alice"; "bob"],
             [ user_of demo_model demo_config "alice" ["calm"];
               user_of demo_model demo_config "bob" ["curious"; "blunt"] ],
             Some (LlmActor.mk LlmActor.LLMUser model "mod" ["patient"]
                     "a forum thread" "keep it civil"),
             2, 6).
Proof.
  apply (generator_builds_moderator (list string) demo_factory
           demo_Conversation demo_Conversation_init demo_config demo_model
           (Some demo_model)
           (LLMConvGenerator.mk (list string) demo_model (Some demo_model)
              demo_config ["alice"; "bob"])
           "mod" ["patient"] "keep it civil");
    reflexivity.
Defined.
